(** * Orbital: the PlayStation 4 machine ([src/orbital/hardware/ps4.cpp])

    A shallow embedding of [PS4Machine]: its constructor (guest-physical
    layout, boot scratch-pad), its destructor (release order) and
    [PS4Machine::recover] (firmware pipeline and the two memory writes),
    followed by the properties of the specification that concern them.

    Conventions.
    - [U64]/[size_t] values are [Z]; [u64] writes the wrap-around out.
    - [U08] is [Byte.byte]; a host array is a [list byte]; a buffer that
      is handed on by pointer ([pdata.data()]) is a [Buffer]: its bytes,
      and the bytes host memory holds after them.
    - The contents of a memory space are a function from offsets to bytes:
      the RAM store is 8GB, and its initial contents are whatever the
      allocation holds.
    - Code that can fail returns [result]; stateful code runs in the monad
      [M], which threads the machine and a chronological trace of the calls
      made, and keeps the state reached when a step fails.
    - [assert()] depends on the build: the theorems hold for both values
      of [NDEBUG] unless they name one. *)

From Stdlib Require Import ZArith List String Bool Lia.
From Stdlib Require Import Strings.Byte.
Import ListNotations.

Local Open Scope Z_scope.

(* ================================================================== *)
(** * Errors and results *)

(** How a call stops without returning.  The first five are the error
    kinds of the specification, section 7; [ps4.cpp] itself raises none
    of them.  [IoError] stands for whatever the stream and container code
    reports besides a failed lookup.  [AssertionFailed] is not an error
    that anyone is told of: a failed [assert()] aborts the process, and
    the run ends there. *)
Inductive Error : Set :=
| OutOfBounds
| OverlapError
| UnmappedAddress
| EntryNotFound
| UnsupportedImage
| IoError
| AssertionFailed.

Inductive result (A : Type) : Type :=
| Ok (a : A)
| Err (e : Error).

Arguments Ok {A} a.
Arguments Err {A} e.

Definition is_ok {A} (r : result A) : bool :=
  match r with Ok _ => true | Err _ => false end.

Definition result_bind {A B} (r : result A) (k : A -> result B) : result B :=
  match r with
  | Ok a => k a
  | Err e => Err e
  end.

Declare Scope result_scope.
Delimit Scope result_scope with result.
Notation "'try' x := r 'in' k" := (result_bind r (fun x => k))
  (at level 61, x name, r at next level, right associativity) : result_scope.

(* ================================================================== *)
(** * Machine integers and literals *)

Definition U64 := Z.

Definition u64 (z : Z) : U64 := z mod 2 ^ 64.

(** Modelled from the spec: the user-defined literal [_GB] is declared
    outside [ps4.cpp]; [n_GB] is [n] times 2^30 bytes ("8GB", "4GB"). *)
Definition GB (n : Z) : U64 := u64 (n * 2 ^ 30).

(** [constexpr U64 PS4_PUP_ENTRY_COREOS = 0x5;] *)
Definition PS4_PUP_ENTRY_COREOS : U64 := 0x5.

(* ================================================================== *)
(** * Memory spaces *)

(** Modelled from the spec: [MemorySpace] (declared outside [ps4.cpp]) is
    an owned byte-addressable store of fixed size; every access must lie
    within [[0, size)], otherwise it fails with [OutOfBounds]. *)
Record MemorySpace : Type := {
  ms_size : Z;
  ms_data : Z -> byte
}.

(** [new MemorySpace(machine, size)]: the store holds what the allocation
    holds, [init]. *)
Definition MemorySpace_new (size : Z) (init : Z -> byte) : MemorySpace :=
  {| ms_size := size; ms_data := init |}.

Definition in_range (off len a : Z) : bool :=
  (off <=? a) && (a <? off + len).

(** [space->read(off, 1, &out)] *)
Definition MemorySpace_read (s : MemorySpace) (off : Z) : result byte :=
  if in_range 0 (ms_size s) off then Ok (ms_data s off) else Err OutOfBounds.

(** A byte buffer where it lies in host memory: its bytes, and the bytes
    that host memory holds from its end on.  The latter are what a read
    past the end of the buffer finds. *)
Record Buffer : Type := {
  buf_bytes : list byte;
  buf_after : Z -> byte
}.

(** [src.size()] *)
Definition buf_size (src : Buffer) : Z := Z.of_nat (List.length (buf_bytes src)).

(** [src.data()[i]]: byte [i] of the buffer, and past its end the byte of
    host memory that lies there. *)
Definition buf_at (src : Buffer) (i : Z) : byte :=
  if i <? buf_size src then nth (Z.to_nat i) (buf_bytes src) x00
  else buf_after src (i - buf_size src).

(** [space->write(off, len, src.data())].  The destination range is
    checked by the space.  The source is a bare pointer, so the copy takes
    [len] bytes from it whatever the size of the buffer it points into. *)
Definition MemorySpace_write (s : MemorySpace) (off len : Z) (src : Buffer)
  : result MemorySpace :=
  if (0 <=? off) && (0 <=? len) && (off + len <=? ms_size s) then
    Ok {| ms_size := ms_size s;
          ms_data := fun a => if in_range off len a
                              then buf_at src (a - off)
                              else ms_data s a |}
  else Err OutOfBounds.

(** [ptr()[off] = v]: a store through the host pointer of the space. *)
Definition poke (s : MemorySpace) (off : Z) (v : byte) : MemorySpace :=
  {| ms_size := ms_size s;
     ms_data := fun a => if a =? off then v else ms_data s a |}.

(** [memcpy(&ptr()[off], src, sizeof(src))] from a host array. *)
Fixpoint poke_bytes (s : MemorySpace) (off : Z) (src : list byte) : MemorySpace :=
  match src with
  | [] => s
  | b :: rest => poke_bytes (poke s off b) (off + 1) rest
  end.

(** The two stores a PS4 machine owns. *)
Inductive Store : Set := RAM | UBIOS.

(** Modelled from the spec: [AliasSpace] (declared outside [ps4.cpp]) is a
    view onto [[offset, offset + size)] of a parent memory space; it owns
    no bytes and forwards accesses with the offset added. *)
Record AliasSpace : Set := {
  alias_parent : Store;
  alias_offset : Z;
  alias_size : Z
}.

(** What can be registered in the composite space. *)
Inductive Space : Set :=
| Memory (s : Store)
| Alias (a : AliasSpace).

(* ================================================================== *)
(** * The composite address space *)

Record Region : Set := {
  rg_base : Z;
  rg_size : Z;
  rg_space : Space
}.

(** Regions in registration order. *)
Definition CompositeSpace := list Region.

(** [[b1, b1+s1)] and [[b2, b2+s2)] intersect. *)
Definition intersects (b1 s1 b2 s2 : Z) : bool :=
  (b1 <? b2 + s2) && (b2 <? b1 + s1).

(** Modelled from the spec: [addSubspace(subspace, base)] registers the
    subspace at [base]; it fails with [OverlapError] if the new range
    intersects a registered one. *)
Definition addSubspace (c : CompositeSpace) (sp : Space) (size base : Z)
  : result CompositeSpace :=
  if existsb (fun r => intersects base size (rg_base r) (rg_size r)) c
  then Err OverlapError
  else Ok (c ++ [{| rg_base := base; rg_size := size; rg_space := sp |}]).

(** Modelled from the spec: [resolve(address)] returns the owning subspace
    and the local offset, or fails with [UnmappedAddress]. *)
Fixpoint resolve (c : CompositeSpace) (addr : Z) : result (Space * Z) :=
  match c with
  | [] => Err UnmappedAddress
  | r :: rest =>
      if in_range (rg_base r) (rg_size r) addr
      then Ok (rg_space r, addr - rg_base r)
      else resolve rest addr
  end.

(** Modelled from the spec: [space_mem->read(address, 1, &out)] resolves
    the address, then delegates to the subspace; an alias forwards to its
    parent with its offset added. *)
Definition Space_read (ram ubios : MemorySpace) (sp : Space) (local : Z)
  : result byte :=
  match sp with
  | Memory RAM => MemorySpace_read ram local
  | Memory UBIOS => MemorySpace_read ubios local
  | Alias a =>
      if in_range 0 (alias_size a) local then
        match alias_parent a with
        | RAM => MemorySpace_read ram (alias_offset a + local)
        | UBIOS => MemorySpace_read ubios (alias_offset a + local)
        end
      else Err OutOfBounds
  end.

(* ================================================================== *)
(** * The machine *)

(** Every object the constructor creates with [new] (and the VM). *)
Inductive Component : Set :=
| c_vm
| c_space_ram
| c_space_ram_below_4g
| c_space_ram_above_4g
| c_space_ubios
| c_cpu (index : Z)
| c_lvp_host
| c_lvp_rc
| c_lvp_gc
| c_lvp_hdac
| c_lvp_iommu
| c_lvp_rp
| c_lvp_fnc0
| c_lvp_fnc1
| c_lvp_fnc2
| c_lvp_fnc3
| c_lvp_fnc4
| c_lvp_fnc5
| c_aeolia_acpi
| c_aeolia_gbe
| c_aeolia_ahci
| c_aeolia_sdhci
| c_aeolia_pcie
| c_aeolia_dmac
| c_aeolia_mem
| c_aeolia_xhci.

Definition Component_eq_dec (a b : Component) : {a = b} + {a <> b}.
Proof. decide equality. apply Z.eq_dec. Defined.

Definition Component_eqb (a b : Component) : bool :=
  if Component_eq_dec a b then true else false.

(** The memory-space objects, and the devices (CPUs, Liverpool, Aeolia). *)
Definition is_space (c : Component) : bool :=
  match c with
  | c_space_ram | c_space_ram_below_4g | c_space_ram_above_4g
  | c_space_ubios => true
  | _ => false
  end.

Definition is_aeolia (c : Component) : bool :=
  match c with
  | c_aeolia_acpi | c_aeolia_gbe | c_aeolia_ahci | c_aeolia_sdhci
  | c_aeolia_pcie | c_aeolia_dmac | c_aeolia_mem | c_aeolia_xhci => true
  | _ => false
  end.

Definition is_device (c : Component) : bool :=
  match c with
  | c_vm => false
  | _ => negb (is_space c)
  end.

(** [PS4MachineConfig]: the CPU count and the two serial-port backends
    handed to the Aeolia PCIe device. *)
Record PS4MachineConfig : Set := {
  cpu_count : Z;
  aeolia_uart0 : string;
  aeolia_uart1 : string
}.

(** [PS4MachineConfig::PS4MachineConfig() { cpu_count = 8; }] *)
Definition PS4MachineConfig_default : PS4MachineConfig :=
  {| cpu_count := 8; aeolia_uart0 := EmptyString; aeolia_uart1 := EmptyString |}.

(** The state of a [PS4Machine] that this file is about.  [space_ram] and
    [space_ubios] are the objects behind the pointers of the same name;
    [objects] lists what was constructed, in construction order. *)
Record PS4Machine : Type := {
  space_mem : CompositeSpace;
  space_ram : MemorySpace;
  space_ram_below_4g : AliasSpace;
  space_ram_above_4g : AliasSpace;
  space_ubios : MemorySpace;
  cpus : list Z;
  apcie_config : string * string;
  objects : list Component
}.

(** [for (int i = 0; i < n; i++)]: the indices visited. *)
Fixpoint count_from (i : Z) (steps : nat) : list Z :=
  match steps with
  | O => []
  | S steps' => i :: count_from (i + 1) steps'
  end.

Definition for_range (n : Z) : list Z := count_from 0 (Z.to_nat n).

(** [uint8_t sha1_null16_preimage[20] = { 0xF8, 0x6F };] the remaining
    eighteen elements are zero-initialised. *)
Definition sha1_null16_preimage : list byte :=
  [xf8; x6f] ++ repeat x00 18.

(** Lines 98-118: the stores into [boot = &ram[0x600000]]. *)
Definition init_boot_area (ram : MemorySpace) : MemorySpace :=
  let boot := 0x600000 in
  let ram := poke ram (boot + 0x000) x06 in
  let ram := poke ram (boot + 0x006) x04 in
  let ram := poke ram (boot + 0x009) x02 in
  let ram := poke ram (boot + 0x00C) x01 in
  let ram := poke ram (boot + 0x00D) x82 in
  let ram := poke ram (boot + 0x1C8) "W"%byte in
  let ram := poke ram (boot + 0x1C9) "5"%byte in
  let ram := poke ram (boot + 0x1CA) "C"%byte in
  let ram := poke ram (boot + 0x1CB) "2"%byte in
  let ram := poke ram (boot + 0x1CC) "1"%byte in
  poke_bytes ram (boot + 0x160) sha1_null16_preimage.

Local Open Scope result_scope.

(** [PS4Machine::PS4Machine(const PS4MachineConfig& config)].  [ram_init]
    and [ubios_init] are the contents of the two stores as allocated.  The
    composite space [space_mem] belongs to the base [Machine], which hands
    it over with the regions [mem0]. *)
Definition PS4Machine_new_in (mem0 : CompositeSpace) (config : PS4MachineConfig)
    (ram_init ubios_init : Z -> byte) : result PS4Machine :=
  (* Initialize RAM *)
  let ram_size : U64 := GB 8 in
  let ram_size_below_4g : U64 := 0x80000000 in
  let ram_size_above_4g : U64 := u64 (ram_size - ram_size_below_4g) in
  let ram := MemorySpace_new ram_size ram_init in
  let below := {| alias_parent := RAM; alias_offset := GB 0;
                  alias_size := ram_size_below_4g |} in
  let above := {| alias_parent := RAM; alias_offset := ram_size_below_4g;
                  alias_size := ram_size_above_4g |} in
  try mem1 := addSubspace mem0 (Alias below) (alias_size below) (GB 0) in
  try mem2 := addSubspace mem1 (Alias above) (alias_size above) (GB 4) in
  (* Initialize UBIOS area *)
  let ubios_size := 0x80000 in
  let ubios := MemorySpace_new ubios_size ubios_init in
  try mem3 := addSubspace mem2 (Memory UBIOS) (ms_size ubios)
                          (u64 (GB 4 - ubios_size)) in
  (* Initialize CPU *)
  let cpu_indices := for_range (cpu_count config) in
  (* Initialize Aeolia *)
  let apcie := (aeolia_uart0 config, aeolia_uart1 config) in
  Ok {| space_mem := mem3;
        space_ram := init_boot_area ram;
        space_ram_below_4g := below;
        space_ram_above_4g := above;
        space_ubios := ubios;
        cpus := cpu_indices;
        apcie_config := apcie;
        objects :=
          [c_vm; c_space_ram; c_space_ram_below_4g; c_space_ram_above_4g;
           c_space_ubios]
          ++ map c_cpu cpu_indices
          ++ [c_lvp_host; c_lvp_rc; c_lvp_gc; c_lvp_hdac; c_lvp_iommu;
              c_lvp_rp; c_lvp_fnc0; c_lvp_fnc1; c_lvp_fnc2; c_lvp_fnc3;
              c_lvp_fnc4; c_lvp_fnc5]
          ++ [c_aeolia_acpi; c_aeolia_gbe; c_aeolia_ahci; c_aeolia_sdhci;
              c_aeolia_pcie; c_aeolia_dmac; c_aeolia_mem; c_aeolia_xhci] |}.

(** Modelled from the spec: the base [Machine] constructor (outside
    [ps4.cpp]) creates the composite space with nothing registered. *)
Definition PS4Machine_new := PS4Machine_new_in [].

(** [PS4Machine::~PS4Machine()]: the [delete]s of the body, in order. *)
Definition PS4Machine_delete (m : PS4Machine) : list Component :=
  (* Destroy Aeolia *)
  [c_aeolia_acpi; c_aeolia_gbe; c_aeolia_ahci; c_aeolia_sdhci;
   c_aeolia_pcie; c_aeolia_dmac; c_aeolia_mem; c_aeolia_xhci]
  (* Destroy Liverpool *)
  ++ [c_lvp_host]
  (* Destroy RAM *)
  ++ [c_space_ubios; c_space_ram_above_4g; c_space_ram_below_4g; c_space_ram].

(** [space_mem->read(addr, 1, &out)] on a machine. *)
Definition guest_read (m : PS4Machine) (addr : Z) : result byte :=
  try hit := resolve (space_mem m) addr in
  Space_read (space_ram m) (space_ubios m) (fst hit) (snd hit).

(** Position of a component in a construction or release sequence. *)
Fixpoint index_of (c : Component) (l : list Component) : option nat :=
  match l with
  | [] => None
  | x :: rest =>
      if Component_eqb c x then Some O
      else option_map S (index_of c rest)
  end.

(** [a] occurs in [l], and strictly before [b]. *)
Definition precedes (a b : Component) (l : list Component) : bool :=
  match index_of a l, index_of b l with
  | Some i, Some j => (i <? j)%nat
  | _, _ => false
  end.

(* ================================================================== *)
(** * Collaborators of [recover] *)

(** The fields of the ELF header and program header that [recover] reads. *)
Record Elf64_Ehdr : Set := { e_phnum : Z }.

Record Elf64_Phdr : Set := {
  p_type : Z;
  p_paddr : U64
}.

(** Modelled from the spec: [PT_LOAD], from [orbital/software/elf.h], is
    the program-header type "loadable"; its ELF value is 1. *)
Definition PT_LOAD : Z := 1.

(** What [recover] consumes and [ps4.cpp] does not define: the file
    stream, the three container readers, [Machine::reset] of the base
    class, and whether the build defines the macro [NDEBUG].  Each call
    either returns or reports an error. *)
Class Collaborators : Type := {
  Stream : Type;
  BlsParser : Type;
  PupParser : Type;
  SelfParser : Type;
  FileStream_open : string -> result Stream;
  BlsParser_new : Stream -> result BlsParser;
  BlsParser_get : BlsParser -> string -> result Stream;
  PupParser_new : Stream -> result PupParser;
  PupParser_get : PupParser -> U64 -> result Stream;
  SelfParser_new : Stream -> result SelfParser;
  SelfParser_get_ehdr : SelfParser -> result Elf64_Ehdr;
  SelfParser_get_phdr : SelfParser -> Z -> result Elf64_Phdr;
  SelfParser_get_pdata : SelfParser -> Z -> result Buffer;
  Machine_reset : PS4Machine -> PS4Machine;
  NDEBUG : bool
}.

(** [m] with its RAM store, or its UBIOS store, replaced. *)
Definition with_space_ram (m : PS4Machine) (s : MemorySpace) : PS4Machine :=
  {| space_mem := space_mem m;
     space_ram := s;
     space_ram_below_4g := space_ram_below_4g m;
     space_ram_above_4g := space_ram_above_4g m;
     space_ubios := space_ubios m;
     cpus := cpus m;
     apcie_config := apcie_config m;
     objects := objects m |}.

Definition with_space_ubios (m : PS4Machine) (s : MemorySpace) : PS4Machine :=
  {| space_mem := space_mem m;
     space_ram := space_ram m;
     space_ram_below_4g := space_ram_below_4g m;
     space_ram_above_4g := space_ram_above_4g m;
     space_ubios := s;
     cpus := cpus m;
     apcie_config := apcie_config m;
     objects := objects m |}.

(** ** The kernel patch *)

Definition byte_to_Z (b : byte) : Z := Z.of_N (Byte.to_N b).

Definition byte_of_Z (z : Z) : byte :=
  match Byte.of_N (Z.to_N (Z.land z 0xFF)) with
  | Some b => b
  | None => x00
  end.

(** Four bytes as a [U32], little-endian. *)
Definition u32_of_bytes (b0 b1 b2 b3 : byte) : Z :=
  Z.lor (byte_to_Z b0)
    (Z.lor (Z.shiftl (byte_to_Z b1) 8)
       (Z.lor (Z.shiftl (byte_to_Z b2) 16)
              (Z.shiftl (byte_to_Z b3) 24))).

(** A [U32] load and store through a host pointer. *)
Definition load_u32 (s : MemorySpace) (off : Z) : Z :=
  u32_of_bytes (ms_data s off) (ms_data s (off + 1))
               (ms_data s (off + 2)) (ms_data s (off + 3)).

Definition store_u32 (s : MemorySpace) (off : Z) (v : Z) : MemorySpace :=
  poke_bytes s off
    [byte_of_Z v; byte_of_Z (Z.shiftr v 8); byte_of_Z (Z.shiftr v 16);
     byte_of_Z (Z.shiftr v 24)].

(** [(U32&)img[0x3B341E] |= 0x800;] with [img = &ram[paddr]]. *)
Definition patch_kernel (ram : MemorySpace) (paddr : Z) : MemorySpace :=
  let img := paddr in
  store_u32 ram (img + 0x3B341E) (Z.lor (load_u32 ram (img + 0x3B341E)) 0x800).

(** [if (0)]: the guard of the patch block. *)
Definition patches_enabled : bool := false.

Section Recover.

Context {env : Collaborators}.

(** ** Trace and monad *)

(** The calls [recover] makes, as they are made. *)
Inductive Event : Type :=
| EvReset
| EvFileStream (file : string)
| EvBlsParser (s : Stream)
| EvBlsGet (p : BlsParser) (name : string)
| EvPupParser (s : Stream)
| EvPupGet (p : PupParser) (id : U64)
| EvSelfParser (s : Stream)
| EvGetEhdr (k : SelfParser)
| EvGetPhdr (k : SelfParser) (i : Z)
| EvGetPdata (k : SelfParser) (i : Z)
| EvWrite (target : Store) (off len : Z).

Record World : Type := {
  machine : PS4Machine;
  trace : list Event
}.

(** State and errors; a failing step leaves the state it reached. *)
Definition M (A : Type) : Type := World -> result A * World.

Definition ret {A} (a : A) : M A := fun w => (Ok a, w).

Definition bind {A B} (c : M A) (k : A -> M B) : M B :=
  fun w =>
    match c w with
    | (Ok a, w') => k a w'
    | (Err e, w') => (Err e, w')
    end.

Definition raise {A} (e : Error) : M A := fun w => (Err e, w).

Definition emit (ev : Event) : M unit :=
  fun w => (Ok tt, {| machine := machine w; trace := trace w ++ [ev] |}).

Definition gets {A} (f : PS4Machine -> A) : M A :=
  fun w => (Ok (f (machine w)), w).

Definition modify (f : PS4Machine -> PS4Machine) : M unit :=
  fun w => (Ok tt, {| machine := f (machine w); trace := trace w |}).

Definition lift {A} (r : result A) : M A := fun w => (r, w).

Declare Scope recover_scope.
Delimit Scope recover_scope with recover.
Notation "x <- c ;; k" := (bind c (fun x => k))
  (at level 61, c at next level, right associativity) : recover_scope.
Notation "c ;; k" := (bind c (fun _ => k))
  (at level 61, right associativity) : recover_scope.
Local Open Scope recover_scope.

(** A collaborator call: recorded, then made. *)
Definition call {A} (ev : Event) (r : result A) : M A :=
  emit ev ;; lift r.

(** Whether execution goes on after [assert(cond)]: always when the
    build defines [NDEBUG], as the macro then expands to nothing, and
    otherwise when the condition holds. *)
Definition passes (cond : bool) : bool := NDEBUG || cond.

(** [assert(cond)] of [<cassert>].  Where it does not pass, the process
    is aborted: [recover] does not return and reports nothing. *)
Definition assert (cond : bool) : M unit :=
  if passes cond then ret tt else raise AssertionFailed.

(** [reset()] *)
Definition reset : M unit :=
  emit EvReset ;; modify Machine_reset.

(** [space_ram->write(off, len, src)] *)
Definition space_ram_write (off len : Z) (src : Buffer) : M unit :=
  emit (EvWrite RAM off len) ;;
  ram <- gets space_ram ;;
  ram' <- lift (MemorySpace_write ram off len src) ;;
  modify (fun m => with_space_ram m ram').

(** [space_ubios->write(off, len, src)] *)
Definition space_ubios_write (off len : Z) (src : Buffer) : M unit :=
  emit (EvWrite UBIOS off len) ;;
  ubios <- gets space_ubios ;;
  ubios' <- lift (MemorySpace_write ubios off len src) ;;
  modify (fun m => with_space_ubios m ubios').

(** ** [PS4Machine::recover] *)

Definition recover (file : string) : M unit :=
  (* Reset the machine *)
  reset ;;
  (* Get kernel ELF image *)
  fs <- call (EvFileStream file) (FileStream_open file) ;;
  bls <- call (EvBlsParser fs) (BlsParser_new fs) ;;
  bs <- call (EvBlsGet bls "PS4UPDATE1.PUP") (BlsParser_get bls "PS4UPDATE1.PUP") ;;
  pup <- call (EvPupParser bs) (PupParser_new bs) ;;
  coreos <- call (EvPupGet pup PS4_PUP_ENTRY_COREOS)
                 (PupParser_get pup PS4_PUP_ENTRY_COREOS) ;;
  coreos_bls <- call (EvBlsParser coreos) (BlsParser_new coreos) ;;
  kernel_bs <- call (EvBlsGet coreos_bls "80010002")
                    (BlsParser_get coreos_bls "80010002") ;;
  kernel <- call (EvSelfParser kernel_bs) (SelfParser_new kernel_bs) ;;
  (* Load kernel segment *)
  ehdr <- call (EvGetEhdr kernel) (SelfParser_get_ehdr kernel) ;;
  assert (e_phnum ehdr =? 1) ;;
  phdr <- call (EvGetPhdr kernel 0) (SelfParser_get_phdr kernel 0) ;;
  pdata <- call (EvGetPdata kernel 0) (SelfParser_get_pdata kernel 0) ;;
  assert (p_type phdr =? PT_LOAD) ;;
  (* Load kernel and UBIOS into memory *)
  space_ram_write (p_paddr phdr) (buf_size pdata) pdata ;;
  ubios_size <- gets (fun m => ms_size (space_ubios m)) ;;
  space_ubios_write 0x0 ubios_size pdata ;;
  (* Patch kernel *)
  (if patches_enabled
   then modify (fun m => with_space_ram m
                           (patch_kernel (space_ram m) (p_paddr phdr)))
   else ret tt).

(** A run of [recover] on machine [m], from an empty trace. *)
Definition boot (m : PS4Machine) : World := {| machine := m; trace := [] |}.

Definition recover_result (file : string) (m : PS4Machine) : result unit :=
  fst (recover file (boot m)).

Definition recover_machine (file : string) (m : PS4Machine) : PS4Machine :=
  machine (snd (recover file (boot m))).

Definition recover_trace (file : string) (m : PS4Machine) : list Event :=
  trace (snd (recover file (boot m))).

(** ** The pipeline without the machine *)

(** Lines 146-154 as a function of the file alone: the signed
    executable the four levels lead to, or the error of the first level
    that fails. *)
Definition locate_kernel (file : string) : result SelfParser :=
  (try fs := FileStream_open file in
   try bls := BlsParser_new fs in
   try bs := BlsParser_get bls "PS4UPDATE1.PUP" in
   try pup := PupParser_new bs in
   try coreos := PupParser_get pup PS4_PUP_ENTRY_COREOS in
   try coreos_bls := BlsParser_new coreos in
   try kernel_bs := BlsParser_get coreos_bls "80010002" in
   SelfParser_new kernel_bs)%result.

(** Lines 156-161 on a signed executable: its program header 0 and the
    data of that header, once execution has gone past both assertions. *)
Definition single_segment (kernel : SelfParser)
  : result (Elf64_Phdr * Buffer) :=
  (try ehdr := SelfParser_get_ehdr kernel in
   if passes (e_phnum ehdr =? 1) then
     try phdr := SelfParser_get_phdr kernel 0 in
     try pdata := SelfParser_get_pdata kernel 0 in
     if passes (p_type phdr =? PT_LOAD) then Ok (phdr, pdata)
     else Err AssertionFailed
   else Err AssertionFailed)%result.

(** Lines 146-161: what [recover] has in hand when it reaches the
    writes, or the error it stops with before them. *)
Definition kernel_segment (file : string) : result (Elf64_Phdr * Buffer) :=
  result_bind (locate_kernel file) single_segment.

(** ** Reading traces *)

Definition is_write (ev : Event) : bool :=
  match ev with EvWrite _ _ _ => true | _ => false end.

Definition is_reset (ev : Event) : bool :=
  match ev with EvReset => true | _ => false end.

(** The key of a container lookup. *)
Inductive Key : Set :=
| ByName (name : string)
| ById (id : U64).

Definition lookup_key (ev : Event) : option Key :=
  match ev with
  | EvBlsGet _ name => Some (ByName name)
  | EvPupGet _ id => Some (ById id)
  | _ => None
  end.

Fixpoint lookup_keys (tr : list Event) : list Key :=
  match tr with
  | [] => []
  | ev :: rest =>
      match lookup_key ev with
      | Some k => k :: lookup_keys rest
      | None => lookup_keys rest
      end
  end.

End Recover.

(* ================================================================== *)
(** * Firmware fixtures *)

(** Modelled from the spec: the firmware artifacts of section 3, for the
    container readers that live outside [ps4.cpp].  An archive maps entry
    names to streams, an update package maps numeric identifiers to
    streams, a signed executable exposes a header and, per program header,
    its raw data. *)
#[warnings="-register-all"]
Inductive Blob : Type :=
| Raw (data : list byte)
| Bls (entries : list (string * Blob))
| Pup (entries : list (U64 * Blob))
| Self (ehdr : Elf64_Ehdr) (segments : list (Elf64_Phdr * list byte)).

Fixpoint find_name {A} (name : string) (entries : list (string * A)) : result A :=
  match entries with
  | [] => Err EntryNotFound
  | (n, a) :: rest => if String.eqb n name then Ok a else find_name name rest
  end.

Fixpoint find_id {A} (id : Z) (entries : list (Z * A)) : result A :=
  match entries with
  | [] => Err EntryNotFound
  | (n, a) :: rest => if n =? id then Ok a else find_id id rest
  end.

Definition nth_result {A} (l : list A) (i : Z) : result A :=
  if i <? 0 then Err OutOfBounds
  else match nth_error l (Z.to_nat i) with
       | Some a => Ok a
       | None => Err OutOfBounds
       end.

(** The bytes that follow a segment buffer in the host memory of the
    fixtures, and a segment buffer there. *)
Definition heap_fill : Z -> byte := fun _ => xcd.

Definition host_buffer (data : list byte) : Buffer :=
  {| buf_bytes := data; buf_after := heap_fill |}.

(** The collaborators over fixtures: [ndebug] is the build, [load] is how
    the signed executable hands out the data of a segment, [disk] says
    what file a path names, [rst] is what [reset] does to the machine. *)
Definition fixture_build (ndebug : bool) (load : list byte -> result Buffer)
    (disk : string -> option Blob)
    (rst : PS4Machine -> PS4Machine) : Collaborators :=
  {| Stream := Blob;
     BlsParser := list (string * Blob);
     PupParser := list (U64 * Blob);
     SelfParser := Elf64_Ehdr * list (Elf64_Phdr * list byte);
     FileStream_open := fun file =>
       match disk file with
       | Some b => Ok b
       | None => Err IoError
       end;
     BlsParser_new := fun s =>
       match s with Bls es => Ok es | _ => Err IoError end;
     BlsParser_get := fun p name => find_name name p;
     PupParser_new := fun s =>
       match s with Pup es => Ok es | _ => Err IoError end;
     PupParser_get := fun p id => find_id id p;
     SelfParser_new := fun s =>
       match s with Self h segs => Ok (h, segs) | _ => Err IoError end;
     SelfParser_get_ehdr := fun k => Ok (fst k);
     SelfParser_get_phdr := fun k i =>
       result_bind (nth_result (snd k) i) (fun seg => Ok (fst seg));
     SelfParser_get_pdata := fun k i =>
       result_bind (nth_result (snd k) i) (fun seg => load (snd seg));
     Machine_reset := rst;
     NDEBUG := ndebug |}.

(** The fixtures of a build without [NDEBUG], whose segment data is
    handed out as it is. *)
Definition fixture_env (disk : string -> option Blob)
    (rst : PS4Machine -> PS4Machine) : Collaborators :=
  fixture_build false (fun data => Ok (host_buffer data)) disk rst.

(** The four-level nesting around a signed executable. *)
Definition firmware_file (kernel : Blob) : Blob :=
  Bls [("PS4UPDATE1.PUP"%string,
        Pup [(0x5, Bls [("80010002"%string, kernel)])])].

(** A signed executable with the given segments; the header reports as
    many program headers as there are segments. *)
Definition self_image (segments : list (Elf64_Phdr * list byte)) : Blob :=
  Self {| e_phnum := Z.of_nat (List.length segments) |} segments.

(** [n] bytes that count 0, 1, ..., 250 and start over. *)
Fixpoint pattern_from (b : Z) (steps : nat) : list byte :=
  match steps with
  | O => []
  | S steps' =>
      byte_of_Z b :: pattern_from (if b =? 250 then 0 else b + 1) steps'
  end.

Definition pattern_bytes (n : Z) : list byte := pattern_from 0 (Z.to_nat n).

Definition load_segment (paddr : Z) (data : list byte)
  : Elf64_Phdr * list byte :=
  ({| p_type := PT_LOAD; p_paddr := paddr |}, data).

(** What the fixtures hand to [recover] for such a segment. *)
Definition loaded_segment (paddr : Z) (data : list byte)
  : Elf64_Phdr * Buffer :=
  ({| p_type := PT_LOAD; p_paddr := paddr |}, host_buffer data).

(** A kernel of exactly the size of the UBIOS area, one byte more, and a
    short one; a kernel loaded at 2GB; a kernel with two segments; a
    kernel whose only segment is not loadable (type 4, a note). *)
Definition kernel_exact : Blob :=
  self_image [load_segment 0x200000 (pattern_bytes 0x80000)].

Definition kernel_long : Blob :=
  self_image [load_segment 0x200000 (pattern_bytes 0x80001)].

Definition kernel_short : Blob :=
  self_image [load_segment 0x200000 (pattern_bytes 3)].

Definition kernel_high : Blob :=
  self_image [load_segment 0x80000000 (pattern_bytes 0x80000)].

Definition kernel_two_segments : Blob :=
  self_image [load_segment 0x200000 (pattern_bytes 32);
              load_segment 0x400000 (pattern_bytes 16)].

Definition kernel_note_only : Blob :=
  self_image [({| p_type := 4; p_paddr := 0x200000 |}, pattern_bytes 32)].

Definition fixture_disk (file : string) : option Blob :=
  if String.eqb file "exact.pup" then Some (firmware_file kernel_exact)
  else if String.eqb file "long.pup" then Some (firmware_file kernel_long)
  else if String.eqb file "short.pup" then Some (firmware_file kernel_short)
  else if String.eqb file "high.pup" then Some (firmware_file kernel_high)
  else if String.eqb file "two.pup" then Some (firmware_file kernel_two_segments)
  else if String.eqb file "note.pup" then Some (firmware_file kernel_note_only)
  else if String.eqb file "nokernel.pup"
       then Some (Bls [("PS4UPDATE1.PUP"%string, Pup [(0x5, Bls [])])])
  else None.

(** Fixture collaborators whose [reset] leaves the machine state of this
    file alone. *)
Definition fixture : Collaborators := fixture_env fixture_disk (fun m => m).

Definition zeroed : Z -> byte := fun _ => x00.

Definition empty_machine : PS4Machine :=
  {| space_mem := [];
     space_ram := MemorySpace_new 0 zeroed;
     space_ram_below_4g := {| alias_parent := RAM; alias_offset := 0; alias_size := 0 |};
     space_ram_above_4g := {| alias_parent := RAM; alias_offset := 0; alias_size := 0 |};
     space_ubios := MemorySpace_new 0 zeroed;
     cpus := [];
     apcie_config := (EmptyString, EmptyString);
     objects := [] |}.

(** The machine built from the default configuration over zeroed stores. *)
Definition default_machine : PS4Machine :=
  match PS4Machine_new PS4MachineConfig_default zeroed zeroed with
  | Ok m => m
  | Err _ => empty_machine
  end.

(** ** Fixtures for the edges of [recover] *)

(** A kernel whose segment runs past the end of the 8GB RAM store, and a
    kernel of the size of the UBIOS area loaded across the boot
    scratch-pad at 0x600000. *)
Definition kernel_beyond : Blob :=
  self_image [load_segment (0x200000000 - 16) (pattern_bytes 32)].

Definition kernel_over_scratch_pad : Blob :=
  self_image [load_segment 0x5C0000 (pattern_bytes 0x80000)].

(** The fixture files and, besides, the two kernels above, an outer
    archive without the update package and an update package without the
    core-OS payload. *)
Definition edge_disk (file : string) : option Blob :=
  if String.eqb file "beyond.pup" then Some (firmware_file kernel_beyond)
  else if String.eqb file "over.pup"
       then Some (firmware_file kernel_over_scratch_pad)
  else if String.eqb file "nopup.pup" then Some (Bls [])
  else if String.eqb file "nocoreos.pup"
       then Some (Bls [("PS4UPDATE1.PUP"%string, Pup [])])
  else fixture_disk file.

Definition edge_fixture : Collaborators := fixture_env edge_disk (fun m => m).

(** ** Fixtures for the assertions *)

(** A kernel with two program headers whose first segment has the size of
    the UBIOS area. *)
Definition kernel_two_full : Blob :=
  self_image [load_segment 0x200000 (pattern_bytes 0x80000);
              load_segment 0x400000 (pattern_bytes 16)].

Definition assert_disk (file : string) : option Blob :=
  if String.eqb file "twofull.pup" then Some (firmware_file kernel_two_full)
  else fixture_disk file.

(** The same files in a build that defines [NDEBUG]. *)
Definition release_fixture : Collaborators :=
  fixture_build true (fun data => Ok (host_buffer data)) assert_disk
                (fun m => m).


(* ================================================================== *)
(** * Vocabulary of the statements *)

Definition disjoint_regions (r1 r2 : Region) : Prop :=
  intersects (rg_base r1) (rg_size r1) (rg_base r2) (rg_size r2) = false.

(** The offsets from [boot] that the constructor stores to. *)
Definition boot_offset_written (off : Z) : bool :=
  existsb (Z.eqb off) [0x000; 0x006; 0x009; 0x00C; 0x00D;
                       0x1C8; 0x1C9; 0x1CA; 0x1CB; 0x1CC]
  || in_range 0x160 20 off.

Definition memory_spaces : list Component :=
  [c_space_ram; c_space_ram_below_4g; c_space_ram_above_4g; c_space_ubios].

Definition aeolia_devices : list Component :=
  [c_aeolia_acpi; c_aeolia_gbe; c_aeolia_ahci; c_aeolia_sdhci;
   c_aeolia_pcie; c_aeolia_dmac; c_aeolia_mem; c_aeolia_xhci].

Definition liverpool_devices : list Component :=
  [c_lvp_rc; c_lvp_gc; c_lvp_hdac; c_lvp_iommu; c_lvp_rp; c_lvp_fnc0;
   c_lvp_fnc1; c_lvp_fnc2; c_lvp_fnc3; c_lvp_fnc4; c_lvp_fnc5].

(** The reading of "strict reverse of construction order" that asks
    least: whenever the destructor releases [a] before [b], [b] was
    constructed before [a]. *)
Definition released_in_reverse (m : PS4Machine) : Prop :=
  forall a b,
    precedes a b (PS4Machine_delete m) = true ->
    precedes b a (objects m) = true.

(** [m] has the composite space and the store sizes of a machine that the
    constructor returned. *)
Definition constructed_spaces (m : PS4Machine) : Prop :=
  exists cfg ram_init ubios_init m0,
    PS4Machine_new cfg ram_init ubios_init = Ok m0 /\
    space_mem m = space_mem m0 /\
    ms_size (space_ram m) = ms_size (space_ram m0) /\
    ms_size (space_ubios m) = ms_size (space_ubios m0).

Section Statements.

Context {env : Collaborators}.

(** The dual write as the specification words it: after a successful
    [recover], the whole payload reads back both at the guest-physical
    address of the segment and from offset 0 of the firmware shadow. *)
Definition dual_write_as_stated (file : string) (m : PS4Machine) : Prop :=
  recover_result file m = Ok tt ->
  forall phdr pdata,
    kernel_segment file = Ok (phdr, pdata) ->
    forall i, 0 <= i < buf_size pdata ->
      guest_read (recover_machine file m) (p_paddr phdr + i)
        = Ok (buf_at pdata i) /\
      MemorySpace_read (space_ubios (recover_machine file m)) i
        = Ok (buf_at pdata i).



End Statements.

(* ================================================================== *)
(** * Properties of the memory model *)

Lemma in_range_iff off len a :
  in_range off len a = true <-> off <= a < off + len.
Proof. unfold in_range. rewrite andb_true_iff, Z.leb_le, Z.ltb_lt. tauto. Qed.

Lemma in_range_false_iff off len a :
  in_range off len a = false <-> a < off \/ off + len <= a.
Proof.
  unfold in_range. rewrite andb_false_iff, Z.leb_gt, Z.ltb_ge. tauto.
Qed.

(** On non-empty ranges, [intersects] is having an address in common. *)
Lemma intersects_iff b1 s1 b2 s2 :
  0 < s1 -> 0 < s2 ->
  intersects b1 s1 b2 s2 = true <->
  exists a, b1 <= a < b1 + s1 /\ b2 <= a < b2 + s2.
Proof.
  intros Hs1 Hs2.
  unfold intersects. rewrite andb_true_iff, !Z.ltb_lt. split.
  - intros [H1 H2]. exists (Z.max b1 b2). lia.
  - intros [a Ha]. lia.
Qed.

Lemma MemorySpace_read_in s off :
  0 <= off < ms_size s -> MemorySpace_read s off = Ok (ms_data s off).
Proof.
  intros H. unfold MemorySpace_read.
  replace (in_range 0 (ms_size s) off) with true; [reflexivity|].
  symmetry. apply in_range_iff. lia.
Qed.

Lemma MemorySpace_read_out s off :
  off < 0 \/ ms_size s <= off -> MemorySpace_read s off = Err OutOfBounds.
Proof.
  intros H. unfold MemorySpace_read.
  replace (in_range 0 (ms_size s) off) with false; [reflexivity|].
  symmetry. apply in_range_false_iff. lia.
Qed.

(** Within the buffer, [buf_at] is a byte of the buffer; past its end, a
    byte of what follows it. *)
Lemma buf_at_inside src i :
  0 <= i < buf_size src -> buf_at src i = nth (Z.to_nat i) (buf_bytes src) x00.
Proof.
  intros Hi. unfold buf_at.
  replace (i <? buf_size src) with true by (symmetry; apply Z.ltb_lt; lia).
  reflexivity.
Qed.

Lemma buf_at_past_end src i :
  buf_size src <= i -> buf_at src i = buf_after src (i - buf_size src).
Proof.
  intros Hi. unfold buf_at.
  replace (i <? buf_size src) with false by (symmetry; apply Z.ltb_ge; lia).
  reflexivity.
Qed.

Lemma buf_size_nonneg src : 0 <= buf_size src.
Proof. unfold buf_size. lia. Qed.

(** What a successful write leaves in the space. *)
Lemma MemorySpace_write_ok s off len src s' :
  MemorySpace_write s off len src = Ok s' ->
  0 <= off /\ 0 <= len /\ off + len <= ms_size s /\
  ms_size s' = ms_size s /\
  forall a, ms_data s' a = if in_range off len a then buf_at src (a - off)
                           else ms_data s a.
Proof.
  unfold MemorySpace_write.
  destruct ((0 <=? off) && (0 <=? len) && (off + len <=? ms_size s)) eqn:Hdst;
    [|discriminate].
  intros H. injection H as <-.
  rewrite !andb_true_iff, !Z.leb_le in Hdst.
  simpl. repeat split; try lia.
Qed.

(** A write only fails on its destination range. *)
Lemma MemorySpace_write_err s off len src e :
  MemorySpace_write s off len src = Err e ->
  e = OutOfBounds /\ (off < 0 \/ len < 0 \/ ms_size s < off + len).
Proof.
  unfold MemorySpace_write.
  destruct ((0 <=? off) && (0 <=? len) && (off + len <=? ms_size s)) eqn:Hdst;
    [discriminate|].
  intros H. injection H as <-. split; [reflexivity|].
  rewrite !andb_false_iff, !Z.leb_gt in Hdst. lia.
Qed.

Lemma MemorySpace_write_fits s off len src :
  0 <= off -> 0 <= len -> off + len <= ms_size s ->
  exists s', MemorySpace_write s off len src = Ok s'.
Proof.
  intros Hoff Hlen Hfit. unfold MemorySpace_write.
  replace ((0 <=? off) && (0 <=? len) && (off + len <=? ms_size s)) with true
    by (symmetry; rewrite !andb_true_iff, !Z.leb_le; lia).
  eexists. reflexivity.
Qed.

Lemma MemorySpace_write_outside s off len src :
  off < 0 \/ len < 0 \/ ms_size s < off + len ->
  MemorySpace_write s off len src = Err OutOfBounds.
Proof.
  intros H. unfold MemorySpace_write.
  replace ((0 <=? off) && (0 <=? len) && (off + len <=? ms_size s)) with false;
    [reflexivity|].
  symmetry. rewrite !andb_false_iff, !Z.leb_gt. lia.
Qed.

Lemma poke_same s off v : ms_data (poke s off v) off = v.
Proof. simpl. rewrite Z.eqb_refl. reflexivity. Qed.

Lemma poke_other s off v a : a <> off -> ms_data (poke s off v) a = ms_data s a.
Proof. intros H. simpl. apply Z.eqb_neq in H. rewrite H. reflexivity. Qed.

Lemma poke_bytes_size src : forall s off,
  ms_size (poke_bytes s off src) = ms_size s.
Proof.
  induction src as [|b rest IH]; intros s off; simpl; [reflexivity|].
  rewrite IH. reflexivity.
Qed.

Lemma poke_bytes_outside src : forall s off a,
  a < off \/ off + Z.of_nat (List.length src) <= a ->
  ms_data (poke_bytes s off src) a = ms_data s a.
Proof.
  induction src as [|b rest IH]; intros s off a H; [reflexivity|].
  cbn [poke_bytes]. rewrite IH.
  - apply poke_other. cbn [List.length] in H. lia.
  - cbn [List.length] in H. lia.
Qed.

(* ================================================================== *)
(** * Registration and resolution *)

(** A range that intersects no registered region is registered, at the
    end of the registry. *)
Lemma addSubspace_disjoint c sp size base :
  Forall (fun r => intersects base size (rg_base r) (rg_size r) = false) c ->
  addSubspace c sp size base
  = Ok (c ++ [{| rg_base := base; rg_size := size; rg_space := sp |}]).
Proof.
  intros Hdis. unfold addSubspace.
  replace (existsb _ c) with false; [reflexivity|].
  symmetry. induction Hdis as [|r c Hr _ IH]; [reflexivity|].
  cbn [existsb]. rewrite Hr, IH. reflexivity.
Qed.

(** A range that intersects a registered region is refused. *)
Lemma addSubspace_overlap c sp size base r :
  In r c -> intersects base size (rg_base r) (rg_size r) = true ->
  addSubspace c sp size base = Err OverlapError.
Proof.
  intros Hin Hr. unfold addSubspace.
  replace (existsb _ c) with true; [reflexivity|].
  symmetry. apply existsb_exists. exists r. split; assumption.
Qed.

(** An address resolves to the first registered region that contains it. *)
Lemma resolve_in c addr sp local :
  resolve c addr = Ok (sp, local) ->
  exists r, In r c /\ rg_space r = sp /\ local = addr - rg_base r /\
            rg_base r <= addr < rg_base r + rg_size r.
Proof.
  induction c as [|r c IH]; [discriminate|].
  cbn [resolve]. destruct (in_range (rg_base r) (rg_size r) addr) eqn:Hr.
  - intros H. injection H as <- <-. exists r.
    apply in_range_iff in Hr. cbn [In]. auto.
  - intros H. destruct (IH H) as (r' & Hin & Hrest). exists r'.
    cbn [In]. auto.
Qed.

Lemma resolve_unmapped c addr :
  Forall (fun r => in_range (rg_base r) (rg_size r) addr = false) c ->
  resolve c addr = Err UnmappedAddress.
Proof.
  induction 1 as [|r c Hr _ IH]; [reflexivity|].
  cbn [resolve]. rewrite Hr. exact IH.
Qed.

Example addSubspace_refuses_overlap :
  addSubspace [{| rg_base := 0; rg_size := 0x1000; rg_space := Memory RAM |}]
              (Memory UBIOS) 0x1000 0xFFF
  = Err OverlapError.
Proof. reflexivity. Qed.

Example addSubspace_accepts_adjacent :
  is_ok (addSubspace
           [{| rg_base := 0; rg_size := 0x1000; rg_space := Memory RAM |}]
           (Memory UBIOS) 0x1000 0x1000)
  = true.
Proof. reflexivity. Qed.

(* ================================================================== *)
(** * The patch block *)

Lemma byte_to_Z_range b : 0 <= byte_to_Z b < 256.
Proof.
  unfold byte_to_Z. pose proof (Byte.to_N_bounded b) as H. lia.
Qed.

Lemma byte_of_to_Z b : byte_of_Z (byte_to_Z b) = b.
Proof.
  unfold byte_of_Z.
  replace (Z.land (byte_to_Z b) 255) with (byte_to_Z b).
  - unfold byte_to_Z. rewrite N2Z.id, Byte.of_to_N. reflexivity.
  - change 255 with (Z.ones 8). rewrite Z.land_ones by lia.
    symmetry. apply Z.mod_small. apply byte_to_Z_range.
Qed.

(** [(U08)z] only depends on the low eight bits of [z]. *)
Lemma byte_of_Z_low z z' :
  Z.land z 255 = Z.land z' 255 -> byte_of_Z z = byte_of_Z z'.
Proof. unfold byte_of_Z. intros ->. reflexivity. Qed.

Lemma byte_bits_high b j : 8 <= j -> Z.testbit (byte_to_Z b) j = false.
Proof.
  intros Hj. pose proof (byte_to_Z_range b) as Hb.
  destruct (Z.eq_dec (byte_to_Z b) 0) as [-> | Hne].
  - apply Z.bits_0.
  - apply Z.bits_above_log2; [lia|].
    assert (Z.log2 (byte_to_Z b) < 8) by (apply Z.log2_lt_pow2; lia). lia.
Qed.

Ltac bits_of_bytes :=
  repeat first
    [ rewrite Z.lor_spec
    | rewrite Z.land_spec
    | rewrite Z.shiftr_spec by lia
    | rewrite Z.shiftl_spec by lia
    | rewrite byte_bits_high by lia
    | rewrite Z.testbit_neg_r by lia ].

(** Byte [k] of a [U32] after [|= 0x800]: bit 3 of byte 1 is set, the
    rest is as it was. *)
Lemma patched_byte b0 b1 b2 b3 k :
  0 <= k < 4 ->
  Z.land (Z.shiftr (Z.lor (u32_of_bytes b0 b1 b2 b3) 0x800) (8 * k)) 255
  = Z.land (if k =? 0 then byte_to_Z b0
            else if k =? 1 then Z.lor (byte_to_Z b1) 8
            else if k =? 2 then byte_to_Z b2
            else byte_to_Z b3) 255.
Proof.
  intros Hk. unfold u32_of_bytes.
  apply Z.bits_inj'. intros n Hn.
  rewrite !Z.land_spec.
  destruct (Z.lt_ge_cases n 8) as [Hlow | Hhigh].
  - f_equal.
    assert (Hcases : k = 0 \/ k = 1 \/ k = 2 \/ k = 3) by lia.
    assert (Hbits : n = 0 \/ n = 1 \/ n = 2 \/ n = 3 \/
                    n = 4 \/ n = 5 \/ n = 6 \/ n = 7) by lia.
    destruct Hcases as [-> | [-> | [-> | ->]]];
      cbn [Z.eqb Pos.eqb Z.mul Pos.mul];
      repeat (destruct Hbits as [-> | Hbits]); try subst n;
      bits_of_bytes; cbn; rewrite ?orb_false_r; reflexivity.
  - change 255 with (Z.ones 8). rewrite Z.ones_spec_high by lia.
    rewrite !andb_false_r. reflexivity.
Qed.

(** What the patch block would do if it ran: set bit 3 of the byte at
    [paddr + 0x3B341F], that is OR 0x800 into the little-endian [U32] at
    [paddr + 0x3B341E], and leave every other byte of the store. *)
Lemma patch_kernel_bytes ram paddr a :
  ms_data (patch_kernel ram paddr) a
  = if a =? paddr + 0x3B341E + 1
    then byte_of_Z (Z.lor (byte_to_Z (ms_data ram a)) 0x08)
    else ms_data ram a.
Proof.
  unfold patch_kernel, store_u32, load_u32. cbv zeta.
  set (off := paddr + 3879966).
  set (b0 := ms_data ram off). set (b1 := ms_data ram (off + 1)).
  set (b2 := ms_data ram (off + 2)). set (b3 := ms_data ram (off + 3)).
  set (v := Z.lor (u32_of_bytes b0 b1 b2 b3) 2048).
  assert (H0 : byte_of_Z v = b0).
  { rewrite <- (byte_of_to_Z b0). apply byte_of_Z_low.
    rewrite <- (Z.shiftr_0_r v).
    exact (patched_byte b0 b1 b2 b3 0 ltac:(lia)). }
  assert (H1 : byte_of_Z (Z.shiftr v 8) = byte_of_Z (Z.lor (byte_to_Z b1) 8)).
  { apply byte_of_Z_low. exact (patched_byte b0 b1 b2 b3 1 ltac:(lia)). }
  assert (H2 : byte_of_Z (Z.shiftr v 16) = b2).
  { rewrite <- (byte_of_to_Z b2). apply byte_of_Z_low.
    exact (patched_byte b0 b1 b2 b3 2 ltac:(lia)). }
  assert (H3 : byte_of_Z (Z.shiftr v 24) = b3).
  { rewrite <- (byte_of_to_Z b3). apply byte_of_Z_low.
    exact (patched_byte b0 b1 b2 b3 3 ltac:(lia)). }
  cbn [poke_bytes poke ms_data]. rewrite H0, H1, H2, H3.
  destruct (Z.eqb_spec a (off + 1 + 1 + 1)) as [-> | N3].
  { replace (off + 1 + 1 + 1 =? off + 1) with false by (symmetry; lia).
    subst b3. f_equal. lia. }
  destruct (Z.eqb_spec a (off + 1 + 1)) as [-> | N2].
  { replace (off + 1 + 1 =? off + 1) with false by (symmetry; lia).
    subst b2. f_equal. lia. }
  destruct (Z.eqb_spec a (off + 1)) as [-> | N1]; [reflexivity|].
  destruct (Z.eqb_spec a off) as [-> | N0]; reflexivity.
Qed.

(* ================================================================== *)
(** * Construction *)

(** The constructor never fails, and its result has the stores and the
    layout below, whatever the configuration and the allocated contents. *)
Lemma PS4Machine_new_ok cfg ram_init ubios_init :
  exists m,
    PS4Machine_new cfg ram_init ubios_init = Ok m /\
    space_mem m =
      [ {| rg_base := 0; rg_size := 0x80000000;
           rg_space := Alias {| alias_parent := RAM; alias_offset := 0;
                                alias_size := 0x80000000 |} |};
        {| rg_base := 0x100000000; rg_size := 0x180000000;
           rg_space := Alias {| alias_parent := RAM;
                                alias_offset := 0x80000000;
                                alias_size := 0x180000000 |} |};
        {| rg_base := 0xFFF80000; rg_size := 0x80000;
           rg_space := Memory UBIOS |} ] /\
    space_ram m = init_boot_area (MemorySpace_new 0x200000000 ram_init) /\
    space_ubios m = MemorySpace_new 0x80000 ubios_init /\
    cpus m = for_range (cpu_count cfg).
Proof.
  eexists. split; [reflexivity|]. repeat split.
Qed.

(** The same on a composite space that already holds regions, as long as
    none of them touches the three windows. *)
Lemma PS4Machine_new_in_ok mem0 cfg ram_init ubios_init :
  Forall (fun r =>
            intersects 0 0x80000000 (rg_base r) (rg_size r) = false /\
            intersects 0x100000000 0x180000000 (rg_base r) (rg_size r) = false /\
            intersects 0xFFF80000 0x80000 (rg_base r) (rg_size r) = false)
         mem0 ->
  exists m m0,
    PS4Machine_new_in mem0 cfg ram_init ubios_init = Ok m /\
    PS4Machine_new cfg ram_init ubios_init = Ok m0 /\
    space_mem m = mem0 ++ space_mem m0 /\
    space_ram m = space_ram m0 /\
    space_ubios m = space_ubios m0 /\
    objects m = objects m0.
Proof.
  intros Hfree.
  assert (H1 : Forall (fun r => intersects 0 0x80000000
                                  (rg_base r) (rg_size r) = false) mem0)
    by (eapply Forall_impl; [|exact Hfree]; intros r Hr; apply Hr).
  assert (H2 : Forall (fun r => intersects 0x100000000 0x180000000
                                  (rg_base r) (rg_size r) = false) mem0)
    by (eapply Forall_impl; [|exact Hfree]; intros r Hr; apply Hr).
  assert (H3 : Forall (fun r => intersects 0xFFF80000 0x80000
                                  (rg_base r) (rg_size r) = false) mem0)
    by (eapply Forall_impl; [|exact Hfree]; intros r Hr; apply Hr).
  unfold PS4Machine_new_in. cbv zeta.
  change (GB 0) with 0. change (GB 4) with 0x100000000.
  change (u64 (GB 8 - 2147483648)) with 0x180000000.
  change (u64 (4294967296 - 524288)) with 0xFFF80000.
  cbn [alias_size ms_size MemorySpace_new].
  rewrite (addSubspace_disjoint mem0) by exact H1. cbn [result_bind].
  rewrite addSubspace_disjoint
    by (apply Forall_app; split; [exact H2 | repeat constructor]).
  cbn [result_bind].
  rewrite addSubspace_disjoint
    by (apply Forall_app; split;
        [apply Forall_app; split; [exact H3 | repeat constructor]
        | repeat constructor]).
  cbn [result_bind].
  do 2 eexists. split; [reflexivity|]. split; [reflexivity|].
  cbn [space_mem]. rewrite <- !app_assoc. repeat split.
Qed.

(** C3. The constructor registers exactly three regions in the composite
    space: the window [[0, 0x80000000)] onto bytes [[0, 0x80000000)] of
    the RAM store, the window [[4GB, 4GB + 6GB)] onto bytes
    [[0x80000000, 8GB)] of the same 8GB store, and the UBIOS (firmware
    shadow) store of 0x80000 bytes at 4GB - 0x80000.  The three guest
    ranges are pairwise disjoint, so each of the three [addSubspace] calls
    succeeds and the constructor returns. *)
Theorem construction_registers_three_disjoint_windows
    (cfg : PS4MachineConfig) (ram_init ubios_init : Z -> byte) :
  exists m below above shadow,
    PS4Machine_new cfg ram_init ubios_init = Ok m /\
    space_mem m = [below; above; shadow] /\
    (* the below-4GB window *)
    rg_base below = 0 /\ rg_size below = 0x80000000 /\
    rg_space below = Alias (space_ram_below_4g m) /\
    alias_parent (space_ram_below_4g m) = RAM /\
    alias_offset (space_ram_below_4g m) = 0 /\
    alias_size (space_ram_below_4g m) = 0x80000000 /\
    (* the above-4GB window *)
    rg_base above = 4 * 2 ^ 30 /\ rg_size above = 6 * 2 ^ 30 /\
    rg_space above = Alias (space_ram_above_4g m) /\
    alias_parent (space_ram_above_4g m) = RAM /\
    alias_offset (space_ram_above_4g m) = 0x80000000 /\
    alias_offset (space_ram_above_4g m) + alias_size (space_ram_above_4g m)
      = 8 * 2 ^ 30 /\
    (* one store of 8GB behind both *)
    ms_size (space_ram m) = 8 * 2 ^ 30 /\
    (* the firmware-shadow window *)
    rg_base shadow = 4 * 2 ^ 30 - 0x80000 /\ rg_size shadow = 0x80000 /\
    rg_space shadow = Memory UBIOS /\ ms_size (space_ubios m) = 0x80000 /\
    (* pairwise disjoint, every registration succeeded *)
    disjoint_regions below above /\ disjoint_regions below shadow /\
    disjoint_regions above shadow /\
    is_ok (addSubspace [] (rg_space below) (rg_size below) (rg_base below))
      = true /\
    is_ok (addSubspace [below] (rg_space above) (rg_size above) (rg_base above))
      = true /\
    is_ok (addSubspace [below; above] (rg_space shadow) (rg_size shadow)
             (rg_base shadow)) = true.
Proof.
  do 4 eexists. split; [reflexivity|].
  split; [reflexivity|]. repeat split.
Qed.

Lemma init_boot_area_size ram : ms_size (init_boot_area ram) = ms_size ram.
Proof. unfold init_boot_area. rewrite poke_bytes_size. reflexivity. Qed.

(** Outside the scratch-pad offsets the store is as allocated. *)
Lemma init_boot_area_frame ram a :
  boot_offset_written (a - 0x600000) = false ->
  ms_data (init_boot_area ram) a = ms_data ram a.
Proof.
  unfold boot_offset_written. rewrite orb_false_iff. intros [Hpoked Hcopy].
  apply in_range_false_iff in Hcopy.
  cbn [existsb] in Hpoked.
  repeat (apply orb_false_iff in Hpoked;
          let H := fresh "Hne" in destruct Hpoked as [H Hpoked];
          apply Z.eqb_neq in H).
  unfold init_boot_area. cbv zeta.
  rewrite poke_bytes_outside by (simpl; lia).
  rewrite !poke_other by lia. reflexivity.
Qed.

(** C5. Right after construction, for every configuration (so for every
    CPU count) and whatever the allocation held, the scratch-pad at RAM
    offset 0x600000 reads 6 at 0x000, 0x4 at 0x006, 0x2 at 0x009, 1 at
    0x00C, 0x82 at 0x00D, "W5C21" at 0x1C8..0x1CC, and at 0x160 the twenty
    bytes of the hash preimage: 0xF8, 0x6F, then eighteen zero bytes.  No
    other byte of the RAM store was changed. *)
Theorem scratch_pad_after_construction
    (cfg : PS4MachineConfig) (ram_init ubios_init : Z -> byte) :
  exists m,
    PS4Machine_new cfg ram_init ubios_init = Ok m /\
    (let boot off := MemorySpace_read (space_ram m) (0x600000 + off) in
     boot 0x000 = Ok x06 /\
     boot 0x006 = Ok x04 /\
     boot 0x009 = Ok x02 /\
     boot 0x00C = Ok x01 /\
     boot 0x00D = Ok x82 /\
     boot 0x1C8 = Ok "W"%byte /\
     boot 0x1C9 = Ok "5"%byte /\
     boot 0x1CA = Ok "C"%byte /\
     boot 0x1CB = Ok "2"%byte /\
     boot 0x1CC = Ok "1"%byte /\
     boot 0x160 = Ok xf8 /\
     boot 0x161 = Ok x6f /\
     (forall i, 2 <= i < 20 -> boot (0x160 + i) = Ok x00)) /\
    (forall a, boot_offset_written (a - 0x600000) = false ->
               ms_data (space_ram m) a = ram_init a).
Proof.
  destruct (PS4Machine_new_ok cfg ram_init ubios_init)
    as (m & Hnew & _ & Hram & _).
  exists m. split; [exact Hnew|]. rewrite Hram. split.
  - cbv zeta. repeat (split; [reflexivity|]).
    intros i Hi.
    assert (Hcases : i = 2 \/ i = 3 \/ i = 4 \/ i = 5 \/ i = 6 \/ i = 7 \/
                     i = 8 \/ i = 9 \/ i = 10 \/ i = 11 \/ i = 12 \/ i = 13 \/
                     i = 14 \/ i = 15 \/ i = 16 \/ i = 17 \/ i = 18 \/ i = 19)
      by lia.
    repeat (destruct Hcases as [-> | Hcases]; [reflexivity|]).
    subst i. reflexivity.
  - intros a Ha. rewrite init_boot_area_frame by exact Ha. reflexivity.
Qed.

(* ================================================================== *)
(** * Teardown *)

(** The destructor releases the Aeolia devices in the order they were
    constructed in: ACPI is constructed before GBE and released before
    it. *)
Lemma teardown_not_reverse_of_construction :
  ~ released_in_reverse default_machine.
Proof.
  intros H.
  specialize (H c_aeolia_acpi c_aeolia_gbe eq_refl).
  vm_compute in H. discriminate H.
Qed.

(** C6 (amended). The constructor creates the memory spaces, then the
    CPUs, then the Liverpool host and its devices, then the Aeolia
    devices.  The destructor releases the Aeolia devices in their
    construction order, then the Liverpool host, then the memory spaces in
    the reverse of their construction order; so every device it releases
    is released before every memory space.  It releases no CPU. *)
Theorem teardown_order (cfg : PS4MachineConfig) (ram_init ubios_init : Z -> byte) :
  exists m,
    PS4Machine_new cfg ram_init ubios_init = Ok m /\
    objects m = [c_vm] ++ memory_spaces ++ map c_cpu (cpus m)
                ++ [c_lvp_host] ++ liverpool_devices ++ aeolia_devices /\
    PS4Machine_delete m = aeolia_devices ++ [c_lvp_host] ++ rev memory_spaces /\
    (forall d s, In d (PS4Machine_delete m) -> In s (PS4Machine_delete m) ->
                 is_device d = true -> is_space s = true ->
                 precedes d s (PS4Machine_delete m) = true) /\
    (forall i, ~ In (c_cpu i) (PS4Machine_delete m)).
Proof.
  eexists. split; [reflexivity|]. split; [reflexivity|].
  split; [reflexivity|]. split.
  - intros d s Hd Hs Hdev Hsp.
    unfold PS4Machine_delete in *. simpl in Hd, Hs.
    repeat (destruct Hd as [<- | Hd]; [|]); try contradiction;
      try discriminate Hdev;
      repeat (destruct Hs as [<- | Hs]; [|]); try contradiction;
        try discriminate Hsp; reflexivity.
  - intros i Hin. simpl in Hin.
    repeat (destruct Hin as [Hin | Hin]; [discriminate Hin|]). exact Hin.
Qed.

(* ================================================================== *)
(** * Guest-physical addresses on a constructed layout *)

Lemma constructed_spaces_inv m :
  constructed_spaces m ->
  space_mem m =
    [ {| rg_base := 0; rg_size := 0x80000000;
         rg_space := Alias {| alias_parent := RAM; alias_offset := 0;
                              alias_size := 0x80000000 |} |};
      {| rg_base := 0x100000000; rg_size := 0x180000000;
         rg_space := Alias {| alias_parent := RAM;
                              alias_offset := 0x80000000;
                              alias_size := 0x180000000 |} |};
      {| rg_base := 0xFFF80000; rg_size := 0x80000;
         rg_space := Memory UBIOS |} ] /\
  ms_size (space_ram m) = 0x200000000 /\
  ms_size (space_ubios m) = 0x80000.
Proof.
  intros (cfg & ram_init & ubios_init & m0 & Hnew & Hmem & Hram & Hubios).
  destruct (PS4Machine_new_ok cfg ram_init ubios_init)
    as (m1 & Hnew1 & Hmem1 & Hram1 & Hubios1 & _).
  rewrite Hnew in Hnew1. injection Hnew1 as <-.
  rewrite Hmem, Hram, Hubios, Hmem1, Hram1, Hubios1.
  rewrite init_boot_area_size. repeat split.
Qed.

Ltac decide_range :=
  repeat match goal with
    | |- context [in_range ?o ?l ?a] =>
        first
          [ replace (in_range o l a) with true
              by (symmetry; apply in_range_iff; lia)
          | replace (in_range o l a) with false
              by (symmetry; apply in_range_false_iff; lia) ]
    end.

(** Below 2GB the guest address is the offset in the RAM store. *)
Lemma guest_read_below m a :
  constructed_spaces m -> 0 <= a < 0x80000000 ->
  guest_read m a = MemorySpace_read (space_ram m) a.
Proof.
  intros Hm Ha. destruct (constructed_spaces_inv m Hm) as (Hmem & Hram & _).
  unfold guest_read. rewrite Hmem.
  cbn [resolve rg_base rg_size rg_space]. decide_range.
  cbn [result_bind fst snd Space_read alias_size alias_parent alias_offset].
  replace (a - 0) with a by lia. decide_range. reflexivity.
Qed.

(** From 4GB on, the guest address is 2GB above the offset in the RAM
    store. *)
Lemma guest_read_above m a :
  constructed_spaces m -> 0x100000000 <= a < 0x280000000 ->
  guest_read m a = MemorySpace_read (space_ram m) (a - 0x80000000).
Proof.
  intros Hm Ha. destruct (constructed_spaces_inv m Hm) as (Hmem & Hram & _).
  unfold guest_read. rewrite Hmem.
  cbn [resolve rg_base rg_size rg_space]. decide_range.
  cbn [result_bind fst snd Space_read alias_size alias_parent alias_offset].
  decide_range. f_equal. lia.
Qed.

(** The last 0x80000 bytes below 4GB are the UBIOS store. *)
Lemma guest_read_shadow m a :
  constructed_spaces m -> 0xFFF80000 <= a < 0x100000000 ->
  guest_read m a = MemorySpace_read (space_ubios m) (a - 0xFFF80000).
Proof.
  intros Hm Ha. destruct (constructed_spaces_inv m Hm) as (Hmem & _).
  unfold guest_read. rewrite Hmem.
  cbn [resolve rg_base rg_size rg_space]. decide_range.
  reflexivity.
Qed.

(** Nothing is mapped between 2GB and the firmware shadow, nor from 10GB. *)
Lemma guest_read_unmapped m a :
  constructed_spaces m ->
  a < 0 \/ 0x80000000 <= a < 0xFFF80000 \/ 0x280000000 <= a ->
  guest_read m a = Err UnmappedAddress.
Proof.
  intros Hm Ha. destruct (constructed_spaces_inv m Hm) as (Hmem & _).
  unfold guest_read. rewrite Hmem.
  cbn [resolve rg_base rg_size rg_space]. decide_range.
  reflexivity.
Qed.

(* ================================================================== *)
(** * [recover] *)

Section RecoverProperties.

Context {env : Collaborators}.

(** Unfolds a run of [recover] down to the collaborator calls and the
    two [MemorySpace_write]s. *)
Ltac unfold_run :=
  cbv beta iota zeta delta
    [recover_result recover_machine recover_trace recover boot
     kernel_segment locate_kernel single_segment result_bind is_ok
     bind call emit lift ret raise gets modify assert reset
     space_ram_write space_ubios_write patches_enabled
     fst snd machine trace app
     with_space_ram with_space_ubios
     space_mem space_ram space_ubios space_ram_below_4g space_ram_above_4g
     cpus apcie_config objects].

(** Case analysis on the next call whose result the run depends on. *)
Ltac next_call :=
  cbv beta iota;
  match goal with
  | |- context [match ?r with Ok _ => _ | Err _ => _ end] =>
      lazymatch r with
      | context [match _ with Ok _ => _ | Err _ => _ end] => fail
      | context [if _ then _ else _] => fail
      | _ => destruct r eqn:?
      end
  | |- context [if ?b then _ else _] =>
      lazymatch b with
      | context [match _ with Ok _ => _ | Err _ => _ end] => fail
      | context [if _ then _ else _] => fail
      | _ => destruct b eqn:?
      end
  end.

(** Two case analyses on the same call agree. *)
Ltac reconcile :=
  repeat match goal with
    | H1 : ?x = Ok _, H2 : ?x = Ok _ |- _ =>
        rewrite H1 in H2; injection H2 as <-
    | H1 : ?x = Err _, H2 : ?x = Err _ |- _ =>
        rewrite H1 in H2; injection H2 as <-
    | H1 : ?x = Ok _, H2 : ?x = Err _ |- _ =>
        rewrite H1 in H2; discriminate H2
    end.

(** ** Runs that stop in the pipeline *)

(** When a step of lines 146-161 fails, [recover] stops with that error;
    the machine is as [reset] left it and no write was attempted. *)
Lemma recover_pipeline_error file m e :
  kernel_segment file = Err e ->
  recover_result file m = Err e /\
  recover_machine file m = Machine_reset m /\
  Forall (fun ev => is_write ev = false) (recover_trace file m).
Proof.
  unfold_run.
  repeat next_call; intros H; try discriminate H; injection H as <-;
    (split; [reflexivity|]); (split; [reflexivity|]);
    repeat constructor.
Qed.

(** ** Runs that reach the writes *)

(** Once the segment is in hand, the outcome is that of the two writes,
    made in this order on the machine [reset] left. *)
Lemma recover_after_pipeline file m phdr pdata :
  kernel_segment file = Ok (phdr, pdata) ->
  let m0 := Machine_reset m in
  match MemorySpace_write (space_ram m0) (p_paddr phdr) (buf_size pdata) pdata with
  | Err e => recover_result file m = Err e /\ recover_machine file m = m0
  | Ok ram' =>
      match MemorySpace_write (space_ubios m0) 0 (ms_size (space_ubios m0)) pdata with
      | Err e =>
          recover_result file m = Err e /\
          recover_machine file m = with_space_ram m0 ram'
      | Ok ubios' =>
          recover_result file m = Ok tt /\
          recover_machine file m
            = with_space_ubios (with_space_ram m0 ram') ubios'
      end
  end.
Proof.
  unfold_run.
  repeat next_call; intros H; try discriminate H;
    injection H as <- <-; reconcile; split; reflexivity.
Qed.

(** The writes a run attempts, read off the end of its trace: the RAM
    write with the length of the segment data, then, if that one
    succeeded, the UBIOS write with the size of the UBIOS store. *)
Lemma recover_writes_attempted file m phdr pdata :
  kernel_segment file = Ok (phdr, pdata) ->
  let m0 := Machine_reset m in
  let ram_write := EvWrite RAM (p_paddr phdr) (buf_size pdata) in
  let ubios_write := EvWrite UBIOS 0 (ms_size (space_ubios m0)) in
  exists calls,
    Forall (fun ev => is_write ev = false) calls /\
    recover_trace file m
      = calls ++
        (if is_ok (MemorySpace_write (space_ram m0) (p_paddr phdr)
                                     (buf_size pdata) pdata)
         then [ram_write; ubios_write] else [ram_write]).
Proof.
  unfold_run.
  repeat next_call; intros H; try discriminate H;
    injection H as <- <-; reconcile;
    match goal with
    | |- exists calls, _ /\ ?l = _ =>
        first
          [ exists (removelast l);
            split; [solve [repeat constructor] | reflexivity]
          | exists (removelast (removelast l));
            split; [solve [repeat constructor] | reflexivity] ]
    end.
Qed.

(** What a run can have done to the machine. *)
Lemma recover_machine_cases file m :
  let m0 := Machine_reset m in
  recover_machine file m = m0 \/
  (exists phdr pdata ram',
      kernel_segment file = Ok (phdr, pdata) /\
      MemorySpace_write (space_ram m0) (p_paddr phdr) (buf_size pdata) pdata
        = Ok ram' /\
      (recover_machine file m = with_space_ram m0 ram' \/
       exists ubios',
         MemorySpace_write (space_ubios m0) 0 (ms_size (space_ubios m0)) pdata
           = Ok ubios' /\
         recover_machine file m
           = with_space_ubios (with_space_ram m0 ram') ubios')).
Proof.
  intros m0.
  destruct (kernel_segment file) as [[phdr pdata]|e] eqn:Hseg.
  - pose proof (recover_after_pipeline file m phdr pdata Hseg) as Hrun.
    cbv zeta in Hrun. fold m0 in Hrun.
    destruct (MemorySpace_write (space_ram m0) _ _ _) as [ram'|e1] eqn:Hram.
    + right. exists phdr, pdata, ram'. split; [reflexivity|].
      split; [exact Hram|].
      destruct (MemorySpace_write (space_ubios m0) _ _ _)
        as [ubios'|e2] eqn:Hubios.
      * right. exists ubios'. split; [reflexivity|]. apply Hrun.
      * left. apply Hrun.
    + left. apply Hrun.
  - left. apply (recover_pipeline_error file m e Hseg).
Qed.

(** A successful run, taken apart. *)
Lemma recover_ok_inv file m :
  recover_result file m = Ok tt ->
  exists phdr pdata ram' ubios',
    kernel_segment file = Ok (phdr, pdata) /\
    MemorySpace_write (space_ram (Machine_reset m)) (p_paddr phdr)
                      (buf_size pdata) pdata = Ok ram' /\
    MemorySpace_write (space_ubios (Machine_reset m)) 0
                      (ms_size (space_ubios (Machine_reset m))) pdata
      = Ok ubios' /\
    recover_machine file m
      = with_space_ubios (with_space_ram (Machine_reset m) ram') ubios'.
Proof.
  intros Hok.
  destruct (kernel_segment file) as [[phdr pdata]|e] eqn:Hseg.
  - pose proof (recover_after_pipeline file m phdr pdata Hseg) as Hrun.
    cbv zeta in Hrun.
    destruct (MemorySpace_write (space_ram (Machine_reset m)) _ _ _)
      as [ram'|e1] eqn:Hram.
    + destruct (MemorySpace_write (space_ubios (Machine_reset m)) _ _ _)
        as [ubios'|e2] eqn:Hubios.
      * exists phdr, pdata, ram', ubios'. tauto.
      * destruct Hrun as [Hr _]. congruence.
    + destruct Hrun as [Hr _]. congruence.
  - destruct (recover_pipeline_error file m e Hseg) as [Hr _]. congruence.
Qed.

(** ** Traces *)

(** Every trace is: the reset, then calls to the collaborators, then the
    writes.  A write is only attempted with the segment in hand, and the
    lookups made are made in one fixed order. *)
Lemma recover_trace_shape file m :
  exists calls writes,
    recover_trace file m = EvReset :: calls ++ writes /\
    Forall (fun ev => is_write ev = false /\ is_reset ev = false) calls /\
    Forall (fun ev => is_write ev = true) writes /\
    (writes <> [] -> is_ok (kernel_segment file) = true) /\
    lookup_keys writes = [] /\
    exists n, lookup_keys calls
              = firstn n [ByName "PS4UPDATE1.PUP"; ById 5; ByName "80010002"].
Proof.
  unfold_run.
  repeat next_call;
    match goal with
    | |- exists calls writes, EvReset :: ?l = _ /\ _ =>
        first
          [ exists l, (@nil Event);
            split; [f_equal; symmetry; apply app_nil_r|];
            split; [solve [repeat constructor]|];
            split; [constructor|];
            split; [intros Hne; congruence|];
            split; [reflexivity|]
          | exists (removelast l), [last l EvReset];
            split; [reflexivity|];
            split; [solve [repeat constructor]|];
            split; [solve [repeat constructor]|];
            split; [reflexivity|];
            split; [reflexivity|]
          | exists (removelast (removelast l)),
                   [last (removelast l) EvReset; last l EvReset];
            split; [reflexivity|];
            split; [solve [repeat constructor]|];
            split; [solve [repeat constructor]|];
            split; [reflexivity|];
            split; [reflexivity|] ]
    end;
    first [ exists 0%nat; reflexivity | exists 1%nat; reflexivity
          | exists 2%nat; reflexivity | exists 3%nat; reflexivity ].
Qed.

(** ** The claims about [recover] *)

(** C10. The file is opened, the three lookups are made, the signed
    executable is read and both of its checks are made before the first
    memory write: in every trace the collaborator calls come first and the
    writes last, and a write is only attempted with the segment in hand.
    So when one of those steps fails, [recover] stops with its error, no
    write having been attempted: the machine, and with it every byte of
    RAM and of the firmware shadow, is as [reset] left it. *)
Theorem recover_failure_is_atomic (file : string) (m : PS4Machine) :
  (exists calls writes,
      recover_trace file m = EvReset :: calls ++ writes /\
      Forall (fun ev => is_write ev = false) calls /\
      Forall (fun ev => is_write ev = true) writes /\
      (writes <> [] -> is_ok (kernel_segment file) = true)) /\
  (forall e,
      kernel_segment file = Err e ->
      recover_result file m = Err e /\
      recover_machine file m = Machine_reset m /\
      (forall a, ms_data (space_ram (recover_machine file m)) a
                 = ms_data (space_ram (Machine_reset m)) a) /\
      (forall a, ms_data (space_ubios (recover_machine file m)) a
                 = ms_data (space_ubios (Machine_reset m)) a) /\
      Forall (fun ev => is_write ev = false) (recover_trace file m)).
Proof.
  split.
  - destruct (recover_trace_shape file m)
      as (calls & writes & Htr & Hcalls & Hwrites & Hseg & _).
    exists calls, writes. repeat split; try assumption.
    eapply Forall_impl; [|exact Hcalls]. intros ev [Hw _]. exact Hw.
  - intros e He.
    destruct (recover_pipeline_error file m e He) as (Hr & Hm & Htr).
    rewrite Hm. repeat split; assumption.
Qed.

Lemma passes_debug cond : NDEBUG = false -> passes cond = cond.
Proof. intros H. unfold passes. rewrite H. reflexivity. Qed.



(** C4. The lookups [recover] makes are, in this order, the entry name
    "PS4UPDATE1.PUP" in an archive, the identifier 5 in an update package
    and the entry name "80010002" in an archive; a run that stops early
    has made a prefix of them.  In a successful run the file stream is
    read as an archive, the stream its lookup returns is read as an update
    package, the stream that lookup returns is read as an archive, and the
    stream that lookup returns is parsed as the signed executable. *)
Theorem pipeline_narrowing (file : string) (m : PS4Machine) :
  (exists n,
      lookup_keys (recover_trace file m)
      = firstn n [ByName "PS4UPDATE1.PUP"; ById 5; ByName "80010002"]) /\
  (recover_result file m = Ok tt ->
   exists fs bls bs pup coreos coreos_bls kernel_bs kernel rest,
     recover_trace file m
       = EvReset :: EvFileStream file
         :: EvBlsParser fs :: EvBlsGet bls "PS4UPDATE1.PUP"
         :: EvPupParser bs :: EvPupGet pup 5
         :: EvBlsParser coreos :: EvBlsGet coreos_bls "80010002"
         :: EvSelfParser kernel_bs :: rest /\
     lookup_keys rest = [] /\
     FileStream_open file = Ok fs /\
     BlsParser_new fs = Ok bls /\
     BlsParser_get bls "PS4UPDATE1.PUP" = Ok bs /\
     PupParser_new bs = Ok pup /\
     PupParser_get pup 5 = Ok coreos /\
     BlsParser_new coreos = Ok coreos_bls /\
     BlsParser_get coreos_bls "80010002" = Ok kernel_bs /\
     SelfParser_new kernel_bs = Ok kernel).
Proof.
  unfold_run.
  repeat next_call;
    (split;
     [ first [ exists 0%nat; reflexivity | exists 1%nat; reflexivity
             | exists 2%nat; reflexivity | exists 3%nat; reflexivity ]
     | intros Hok;
       first [ discriminate Hok
             | do 9 eexists; split; [reflexivity|];
               split; [reflexivity|]; repeat split; eassumption ] ]).
Qed.

(** C7. Every run of [recover] starts by calling [reset], before the file
    is opened and before any write, and calls it once.  What follows
    [reset] leaves the composite space, the two alias descriptors and the
    sizes of the two stores as [reset] left them; so, [reset] preserving
    the registered regions, [recover] does. *)
Theorem recover_resets_first (file : string) (m : PS4Machine) :
  (forall m0, space_mem (Machine_reset m0) = space_mem m0) ->
  (exists rest,
      recover_trace file m = EvReset :: rest /\
      Forall (fun ev => is_reset ev = false) rest) /\
  space_mem (recover_machine file m) = space_mem (Machine_reset m) /\
  space_ram_below_4g (recover_machine file m)
    = space_ram_below_4g (Machine_reset m) /\
  space_ram_above_4g (recover_machine file m)
    = space_ram_above_4g (Machine_reset m) /\
  ms_size (space_ram (recover_machine file m))
    = ms_size (space_ram (Machine_reset m)) /\
  ms_size (space_ubios (recover_machine file m))
    = ms_size (space_ubios (Machine_reset m)) /\
  space_mem (recover_machine file m) = space_mem m.
Proof.
  intros Hreset. split.
  - destruct (recover_trace_shape file m)
      as (calls & writes & Htr & Hcalls & Hwrites & _).
    exists (calls ++ writes). split; [exact Htr|].
    apply Forall_app. split.
    + eapply Forall_impl; [|exact Hcalls]. intros ev [_ Hr]. exact Hr.
    + eapply Forall_impl; [|exact Hwrites].
      intros ev Hw. destruct ev; try discriminate Hw; reflexivity.
  - rewrite <- (Hreset m).
    destruct (recover_machine_cases file m)
      as [-> | (phdr & pdata & ram' & Hseg & Hram & Hcase)].
    + repeat split.
    + apply MemorySpace_write_ok in Hram.
      destruct Hram as (_ & _ & _ & Hsize & _).
      destruct Hcase as [-> | (ubios' & Hubios & ->)].
      * repeat split. exact Hsize.
      * apply MemorySpace_write_ok in Hubios.
        destruct Hubios as (_ & _ & _ & Hsize' & _).
        repeat split; assumption.
Qed.

(** C8. The patch block is guarded by a constant false and so never
    runs.  It is not a failure source: with the segment in hand, [recover]
    succeeds as soon as its two writes do.  After a successful run the RAM
    store is the very result of the segment write and the firmware shadow
    the very result of the shadow write: outside the written segment every
    byte of RAM is as [reset] left it, and inside it every byte is the
    segment's, the four bytes at segment offset 0x3B341E included (no
    0x800 is ORed in). *)
Theorem patch_step_disabled (file : string) (m : PS4Machine) :
  patches_enabled = false /\
  (forall phdr pdata ram' ubios',
      kernel_segment file = Ok (phdr, pdata) ->
      MemorySpace_write (space_ram (Machine_reset m)) (p_paddr phdr)
                        (buf_size pdata) pdata = Ok ram' ->
      MemorySpace_write (space_ubios (Machine_reset m)) 0
                        (ms_size (space_ubios (Machine_reset m))) pdata
        = Ok ubios' ->
      recover_result file m = Ok tt) /\
  (recover_result file m = Ok tt ->
   exists phdr pdata ram' ubios',
     kernel_segment file = Ok (phdr, pdata) /\
     MemorySpace_write (space_ram (Machine_reset m)) (p_paddr phdr)
                       (buf_size pdata) pdata = Ok ram' /\
     MemorySpace_write (space_ubios (Machine_reset m)) 0
                       (ms_size (space_ubios (Machine_reset m))) pdata
       = Ok ubios' /\
     space_ram (recover_machine file m) = ram' /\
     space_ubios (recover_machine file m) = ubios' /\
     (forall a,
         ms_data (space_ram (recover_machine file m)) a
         = if in_range (p_paddr phdr) (buf_size pdata) a
           then buf_at pdata (a - p_paddr phdr)
           else ms_data (space_ram (Machine_reset m)) a) /\
     (forall a,
         ms_data (space_ubios (recover_machine file m)) a
         = if in_range 0 (ms_size (space_ubios (Machine_reset m))) a
           then buf_at pdata a
           else ms_data (space_ubios (Machine_reset m)) a)).
Proof.
  split; [reflexivity|]. split.
  - intros phdr pdata ram' ubios' Hseg Hram Hubios.
    pose proof (recover_after_pipeline file m phdr pdata Hseg) as Hrun.
    cbv zeta in Hrun. rewrite Hram, Hubios in Hrun. apply Hrun.
  - intros Hok.
    destruct (recover_ok_inv file m Hok)
      as (phdr & pdata & ram' & ubios' & Hseg & Hram & Hubios & Hm).
    exists phdr, pdata, ram', ubios'.
    rewrite Hm. cbn [space_ram space_ubios with_space_ram with_space_ubios].
    repeat (split; [first [assumption | reflexivity]|]).
    apply MemorySpace_write_ok in Hram, Hubios.
    destruct Hram as (_ & _ & _ & _ & Hram).
    destruct Hubios as (_ & _ & _ & _ & Hubios).
    split; [exact Hram|].
    intros a. rewrite Hubios, Z.sub_0_r. reflexivity.
Qed.

(** C9. With the segment in hand and the RAM write done, [recover] asks
    the UBIOS store for a write at offset 0 of as many bytes as the store
    has, 0x80000, read from the start of the segment data, whatever the
    length of that data.  The copy stays within the segment data exactly
    when the data has at least 0x80000 bytes: every byte of the shadow is
    then a byte of the data.  When the data has fewer, the copy reads
    past its end: the shadow holds the data, and after it the bytes that
    follow the data in host memory. *)
Theorem shadow_copy_length
    (file : string) (m : PS4Machine)
    (phdr : Elf64_Phdr) (pdata : Buffer) (ram' : MemorySpace) :
  kernel_segment file = Ok (phdr, pdata) ->
  MemorySpace_write (space_ram (Machine_reset m)) (p_paddr phdr)
                    (buf_size pdata) pdata = Ok ram' ->
  ms_size (space_ubios (Machine_reset m)) = 0x80000 ->
  last (recover_trace file m) EvReset = EvWrite UBIOS 0 0x80000 /\
  (0x80000 <= buf_size pdata ->
     recover_result file m = Ok tt /\
     forall i, 0 <= i < 0x80000 ->
       ms_data (space_ubios (recover_machine file m)) i = buf_at pdata i) /\
  (0x80000 <= buf_size pdata ->
     forall i, 0 <= i < 0x80000 ->
       ms_data (space_ubios (recover_machine file m)) i
       = nth (Z.to_nat i) (buf_bytes pdata) x00) /\
  (buf_size pdata < 0x80000 ->
     recover_result file m = Ok tt /\
     (forall i, 0 <= i < buf_size pdata ->
        ms_data (space_ubios (recover_machine file m)) i
        = nth (Z.to_nat i) (buf_bytes pdata) x00) /\
     (forall i, buf_size pdata <= i < 0x80000 ->
        ms_data (space_ubios (recover_machine file m)) i
        = buf_after pdata (i - buf_size pdata))).
Proof.
  intros Hseg Hram Hsize.
  pose proof (recover_after_pipeline file m phdr pdata Hseg) as Hrun.
  destruct (recover_writes_attempted file m phdr pdata Hseg)
    as (calls & _ & Htr).
  cbv zeta in Hrun, Htr. rewrite Hram in Hrun, Htr. rewrite Hsize in Hrun, Htr.
  cbn [is_ok] in Htr.
  destruct (MemorySpace_write_fits (space_ubios (Machine_reset m)) 0 524288 pdata)
    as [ubios' Hubios]; try lia.
  rewrite Hubios in Hrun. destruct Hrun as [Hr Hm].
  apply MemorySpace_write_ok in Hubios.
  destruct Hubios as (_ & _ & _ & _ & Hdata).
  assert (Hcopy : forall i, 0 <= i < 0x80000 ->
            ms_data (space_ubios (recover_machine file m)) i = buf_at pdata i).
  { intros i Hi. rewrite Hm. cbn [space_ubios with_space_ubios].
    rewrite Hdata, Z.sub_0_r.
    replace (in_range 0 524288 i) with true
      by (symmetry; apply in_range_iff; lia).
    reflexivity. }
  split; [|split; [|split]].
  - rewrite Htr.
    change [EvWrite RAM (p_paddr phdr) (buf_size pdata); EvWrite UBIOS 0 524288]
      with ([EvWrite RAM (p_paddr phdr) (buf_size pdata)]
              ++ [EvWrite UBIOS 0 524288]).
    rewrite app_assoc. apply last_last.
  - intros Hlen. split; [exact Hr | exact Hcopy].
  - intros Hlen i Hi. rewrite Hcopy by exact Hi. apply buf_at_inside. lia.
  - intros Hshort. pose proof (buf_size_nonneg pdata) as Hsize0.
    split; [exact Hr|]. split.
    + intros i Hi. rewrite Hcopy by lia. apply buf_at_inside. lia.
    + intros i Hi. rewrite Hcopy by lia. apply buf_at_past_end. lia.
Qed.

(** C1 (amended). After a successful [recover] on a machine with the
    constructed layout, the segment data lies within the 8GB RAM store at
    offset [p_paddr] and every byte of it reads back from the store there.
    That offset is the guest-physical address [p_paddr] when the segment
    ends at or below 0x80000000, and the guest-physical address
    [p_paddr + 0x80000000] when it starts at or above 0x80000000.  The
    firmware shadow, at guest-physical address 4GB - 0x80000, holds at
    its offset 0 the first 0x80000 bytes of the segment data and has no
    byte past them. *)
Theorem recover_dual_write
    (file : string) (m : PS4Machine) (phdr : Elf64_Phdr) (pdata : Buffer) :
  constructed_spaces (Machine_reset m) ->
  kernel_segment file = Ok (phdr, pdata) ->
  recover_result file m = Ok tt ->
  let m' := recover_machine file m in
  0 <= p_paddr phdr /\
  p_paddr phdr + buf_size pdata <= 8 * 2 ^ 30 /\
  (forall i, 0 <= i < buf_size pdata ->
     MemorySpace_read (space_ram m') (p_paddr phdr + i) = Ok (buf_at pdata i)) /\
  (p_paddr phdr + buf_size pdata <= 0x80000000 ->
   forall i, 0 <= i < buf_size pdata ->
     guest_read m' (p_paddr phdr + i) = Ok (buf_at pdata i)) /\
  (0x80000000 <= p_paddr phdr ->
   forall i, 0 <= i < buf_size pdata ->
     guest_read m' (p_paddr phdr + 0x80000000 + i) = Ok (buf_at pdata i)) /\
  (forall i, 0 <= i < 0x80000 -> i < buf_size pdata ->
     MemorySpace_read (space_ubios m') i = Ok (buf_at pdata i) /\
     guest_read m' (4 * 2 ^ 30 - 0x80000 + i) = Ok (buf_at pdata i)) /\
  (forall i, 0x80000 <= i ->
     MemorySpace_read (space_ubios m') i = Err OutOfBounds).
Proof.
  intros Hspaces Hseg Hok m'. subst m'.
  destruct (recover_ok_inv file m Hok)
    as (phdr' & pdata' & ram' & ubios' & Hseg' & Hram & Hubios & Hm).
  rewrite Hseg in Hseg'. injection Hseg' as <- <-.
  destruct (constructed_spaces_inv _ Hspaces) as (Hmem & Hramsz & Hubiossz).
  apply MemorySpace_write_ok in Hram, Hubios.
  destruct Hram as (Hoff & Hlen & Hfit & Hramsz' & Hramdata).
  destruct Hubios as (_ & _ & _ & Hubiossz' & Hubiosdata).
  rewrite Hramsz in Hfit, Hramsz'. rewrite Hubiossz in Hubiossz', Hubiosdata.
  assert (Hspaces' : constructed_spaces (recover_machine file m)).
  { destruct Hspaces as (cfg & r0 & u0 & m0 & Hnew & Hmem0 & Hr0 & Hu0).
    exists cfg, r0, u0, m0. rewrite Hm.
    cbn [space_mem space_ram space_ubios with_space_ram with_space_ubios].
    rewrite <- Hr0, <- Hu0, Hramsz, Hramsz', Hubiossz, Hubiossz'.
    repeat split; assumption. }
  assert (Hram_read : forall i, 0 <= i < buf_size pdata ->
            MemorySpace_read (space_ram (recover_machine file m))
                             (p_paddr phdr + i) = Ok (buf_at pdata i)).
  { intros i Hi. rewrite Hm.
    cbn [space_ram with_space_ram with_space_ubios].
    rewrite MemorySpace_read_in by lia. rewrite Hramdata.
    replace (in_range (p_paddr phdr) (buf_size pdata) (p_paddr phdr + i))
      with true by (symmetry; apply in_range_iff; lia).
    f_equal. f_equal. lia. }
  assert (Hubios_read : forall i, 0 <= i < 0x80000 ->
            MemorySpace_read (space_ubios (recover_machine file m)) i
            = Ok (buf_at pdata i)).
  { intros i Hi. rewrite Hm. cbn [space_ubios with_space_ubios].
    rewrite MemorySpace_read_in by lia. rewrite Hubiosdata.
    replace (in_range 0 524288 i) with true
      by (symmetry; apply in_range_iff; lia).
    rewrite Z.sub_0_r. reflexivity. }
  split; [lia|]. split; [lia|].
  split; [exact Hram_read|]. split; [|split; [|split]].
  - intros Hlow i Hi. rewrite guest_read_below by (assumption || lia).
    apply Hram_read. exact Hi.
  - intros Hhigh i Hi. rewrite guest_read_above by (assumption || lia).
    replace (p_paddr phdr + 2147483648 + i - 2147483648)
      with (p_paddr phdr + i) by lia.
    apply Hram_read. exact Hi.
  - intros i Hi _. split; [apply Hubios_read; exact Hi|].
    rewrite guest_read_shadow by (assumption || lia).
    replace (4 * 2 ^ 30 - 524288 + i - 4294443008) with i by lia.
    apply Hubios_read. exact Hi.
  - intros i Hi. apply MemorySpace_read_out. rewrite Hm.
    cbn [space_ubios with_space_ubios]. lia.
Qed.

(** ** Further properties of [recover] *)


(** A segment that does not lie within the RAM store, lines 164-165:
    [recover] fails with [OutOfBounds] at the RAM write, which is the
    last call it makes; the machine is as [reset] left it and the shadow
    write is never attempted. *)
Theorem segment_outside_ram
    (file : string) (m : PS4Machine) (phdr : Elf64_Phdr) (pdata : Buffer) :
  kernel_segment file = Ok (phdr, pdata) ->
  p_paddr phdr < 0 \/
  ms_size (space_ram (Machine_reset m)) < p_paddr phdr + buf_size pdata ->
  recover_result file m = Err OutOfBounds /\
  recover_machine file m = Machine_reset m /\
  last (recover_trace file m) EvReset
  = EvWrite RAM (p_paddr phdr) (buf_size pdata) /\
  (forall off len, ~ In (EvWrite UBIOS off len) (recover_trace file m)).
Proof.
  intros Hseg Hout.
  pose proof (recover_after_pipeline file m phdr pdata Hseg) as Hrun.
  destruct (recover_writes_attempted file m phdr pdata Hseg)
    as (calls & Hcalls & Htr).
  cbv zeta in Hrun, Htr.
  rewrite MemorySpace_write_outside in Hrun, Htr by lia.
  cbn [is_ok] in Htr. destruct Hrun as [Hr Hm].
  split; [exact Hr|]. split; [exact Hm|]. rewrite Htr. split.
  - apply last_last.
  - intros off len Hin. apply in_app_iff in Hin.
    destruct Hin as [Hin | Hin].
    + rewrite Forall_forall in Hcalls. specialize (Hcalls _ Hin).
      discriminate Hcalls.
    + cbn [In] in Hin. destruct Hin as [Hin | []]. discriminate Hin.
Qed.

(** [recover] after the constructor, lines 98-118 and 164: the scratch-pad
    the constructor filled at RAM offset 0x600000 is not written again by
    [recover].  A segment that covers offsets 0x600000 to 0x6001CC
    replaces all of it by segment bytes; with a segment that ends at or
    below 0x600000, or starts at or above 0x6001CD, and a [reset] that
    leaves RAM alone, it reads after [recover] as after construction. *)
Theorem recover_and_the_scratch_pad
    (cfg : PS4MachineConfig) (ram_init ubios_init : Z -> byte)
    (file : string) (m : PS4Machine) (phdr : Elf64_Phdr) (pdata : Buffer) :
  PS4Machine_new cfg ram_init ubios_init = Ok m ->
  (forall a, ms_data (space_ram (Machine_reset m)) a = ms_data (space_ram m) a) ->
  kernel_segment file = Ok (phdr, pdata) ->
  recover_result file m = Ok tt ->
  let boot off := ms_data (space_ram (recover_machine file m)) (0x600000 + off) in
  (p_paddr phdr <= 0x600000 /\ 0x6001CD <= p_paddr phdr + buf_size pdata ->
   forall off, 0 <= off < 0x1CD ->
     boot off = buf_at pdata (0x600000 + off - p_paddr phdr)) /\
  (p_paddr phdr + buf_size pdata <= 0x600000 \/ 0x6001CD <= p_paddr phdr ->
   (forall off, 0 <= off < 0x1CD ->
      boot off = ms_data (space_ram m) (0x600000 + off)) /\
   boot 0x000 = x06 /\ boot 0x00D = x82 /\ boot 0x160 = xf8 /\
   boot 0x1CC = "1"%byte).
Proof.
  intros Hnew Hreset Hseg Hok boot.
  destruct (recover_ok_inv file m Hok)
    as (phdr' & pdata' & ram' & ubios' & Hseg' & Hram & _ & Hm).
  rewrite Hseg in Hseg'. injection Hseg' as <- <-.
  apply MemorySpace_write_ok in Hram.
  destruct Hram as (_ & _ & _ & _ & Hdata).
  assert (Hboot : forall off,
             boot off
             = if in_range (p_paddr phdr) (buf_size pdata) (0x600000 + off)
               then buf_at pdata (0x600000 + off - p_paddr phdr)
               else ms_data (space_ram m) (0x600000 + off)).
  { intros off. unfold boot. rewrite Hm.
    cbn [space_ram with_space_ram with_space_ubios].
    rewrite Hdata, Hreset. reflexivity. }
  split.
  - intros Hcover off Hoff. rewrite Hboot.
    replace (in_range _ _ _) with true
      by (symmetry; apply in_range_iff; lia).
    reflexivity.
  - intros Hapart.
    assert (Hkept : forall off, 0 <= off < 0x1CD ->
               boot off = ms_data (space_ram m) (0x600000 + off)).
    { intros off Hoff. rewrite Hboot.
      replace (in_range _ _ _) with false
        by (symmetry; apply in_range_false_iff; lia).
      reflexivity. }
    split; [exact Hkept|].
    destruct (PS4Machine_new_ok cfg ram_init ubios_init)
      as (m1 & Hnew1 & _ & Hram1 & _).
    rewrite Hnew in Hnew1. injection Hnew1 as <-.
    rewrite !Hkept by lia. rewrite Hram1. repeat split.
Qed.


(** A successful run in full, lines 142-165: fourteen calls in this
    order.  The header is read once, the program header and the segment
    data are both those of index 0 of the same signed executable and no
    other index is asked for, and the RAM write, at the address of that
    header and of the length of that data, precedes the shadow write.  In
    a build without [NDEBUG] the header reports one program header and
    that header is of type loadable. *)
Theorem successful_run (file : string) (m : PS4Machine) :
  recover_result file m = Ok tt ->
  exists fs bls bs pup coreos coreos_bls kernel_bs kernel ehdr phdr pdata,
    recover_trace file m
    = [EvReset; EvFileStream file;
       EvBlsParser fs; EvBlsGet bls "PS4UPDATE1.PUP";
       EvPupParser bs; EvPupGet pup 5;
       EvBlsParser coreos; EvBlsGet coreos_bls "80010002";
       EvSelfParser kernel_bs;
       EvGetEhdr kernel; EvGetPhdr kernel 0; EvGetPdata kernel 0;
       EvWrite RAM (p_paddr phdr) (buf_size pdata);
       EvWrite UBIOS 0 (ms_size (space_ubios (Machine_reset m)))] /\
    SelfParser_new kernel_bs = Ok kernel /\
    SelfParser_get_ehdr kernel = Ok ehdr /\
    (NDEBUG = false -> e_phnum ehdr = 1) /\
    SelfParser_get_phdr kernel 0 = Ok phdr /\
    SelfParser_get_pdata kernel 0 = Ok pdata /\
    (NDEBUG = false -> p_type phdr = PT_LOAD) /\
    kernel_segment file = Ok (phdr, pdata).
Proof.
  unfold_run.
  repeat next_call; intros Hok;
    first
      [ discriminate Hok
      | do 11 eexists; split; [reflexivity|];
        repeat split;
        first
          [ eassumption
          | intros Hdebug;
            match goal with
            | H : passes _ = true |- _ =>
                rewrite (passes_debug _ Hdebug) in H;
                apply Z.eqb_eq in H; exact H
            end ] ].
Qed.

(** A lookup that fails, lines 148-153: [recover] reports the error of
    that lookup as it is, and the lookup is the last call made, so the
    next level is never parsed.  This holds for the update package in
    the outer archive, for the core-OS payload in the update package and
    for the kernel in the inner archive. *)
Theorem failed_lookup_stops_recover (file : string) (m : PS4Machine) :
  (forall fs bls e,
      FileStream_open file = Ok fs -> BlsParser_new fs = Ok bls ->
      BlsParser_get bls "PS4UPDATE1.PUP" = Err e ->
      recover_result file m = Err e /\
      recover_trace file m
      = [EvReset; EvFileStream file; EvBlsParser fs;
         EvBlsGet bls "PS4UPDATE1.PUP"]) /\
  (forall fs bls bs pup e,
      FileStream_open file = Ok fs -> BlsParser_new fs = Ok bls ->
      BlsParser_get bls "PS4UPDATE1.PUP" = Ok bs ->
      PupParser_new bs = Ok pup -> PupParser_get pup 5 = Err e ->
      recover_result file m = Err e /\
      recover_trace file m
      = [EvReset; EvFileStream file; EvBlsParser fs;
         EvBlsGet bls "PS4UPDATE1.PUP"; EvPupParser bs; EvPupGet pup 5]) /\
  (forall fs bls bs pup coreos coreos_bls e,
      FileStream_open file = Ok fs -> BlsParser_new fs = Ok bls ->
      BlsParser_get bls "PS4UPDATE1.PUP" = Ok bs ->
      PupParser_new bs = Ok pup -> PupParser_get pup 5 = Ok coreos ->
      BlsParser_new coreos = Ok coreos_bls ->
      BlsParser_get coreos_bls "80010002" = Err e ->
      recover_result file m = Err e /\
      recover_trace file m
      = [EvReset; EvFileStream file; EvBlsParser fs;
         EvBlsGet bls "PS4UPDATE1.PUP"; EvPupParser bs; EvPupGet pup 5;
         EvBlsParser coreos; EvBlsGet coreos_bls "80010002"]).
Proof.
  unfold_run. split; [|split].
  - intros fs bls e H1 H2 H3. rewrite H1, H2, H3. split; reflexivity.
  - intros fs bls bs pup e H1 H2 H3 H4 H5.
    change 5 with PS4_PUP_ENTRY_COREOS in H5.
    rewrite H1, H2, H3, H4, H5. split; reflexivity.
  - intros fs bls bs pup coreos coreos_bls e H1 H2 H3 H4 H5 H6 H7.
    change 5 with PS4_PUP_ENTRY_COREOS in H5.
    rewrite H1, H2, H3, H4, H5, H6, H7. split; reflexivity.
Qed.

End RecoverProperties.

(* ================================================================== *)
(** * The claims on the fixtures *)

Lemma default_machine_constructed :
  PS4Machine_new PS4MachineConfig_default zeroed zeroed = Ok default_machine.
Proof. reflexivity. Qed.

Lemma default_machine_spaces : constructed_spaces default_machine.
Proof.
  exists PS4MachineConfig_default, zeroed, zeroed, default_machine.
  repeat split.
Qed.

(** The fixtures, run. *)
Example recover_missing_file :
  recover_result (env := fixture) "absent.pup" default_machine = Err IoError.
Proof. vm_compute. reflexivity. Qed.

Example recover_no_kernel_entry :
  recover_result (env := fixture) "nokernel.pup" default_machine
  = Err EntryNotFound.
Proof. vm_compute. reflexivity. Qed.

Example recover_two_segments :
  recover_result (env := fixture) "two.pup" default_machine
  = Err AssertionFailed.
Proof. vm_compute. reflexivity. Qed.

Example recover_two_segments_release :
  recover_result (env := release_fixture) "two.pup" default_machine = Ok tt.
Proof. vm_compute. reflexivity. Qed.

Example recover_short_kernel :
  recover_result (env := fixture) "short.pup" default_machine = Ok tt /\
  map (ms_data (space_ubios (recover_machine (env := fixture)
                                             "short.pup" default_machine)))
      [0; 1; 2; 3; 4; 0x7FFFF]
  = [x00; x01; x02; xcd; xcd; xcd].
Proof. vm_compute. split; reflexivity. Qed.

Example recover_long_kernel_shadow_end :
  MemorySpace_read
    (space_ubios (recover_machine (env := fixture) "long.pup" default_machine))
    0x7FFFF
  = MemorySpace_read
      (space_ram (recover_machine (env := fixture) "long.pup" default_machine))
      (0x200000 + 0x7FFFF).
Proof. vm_compute. reflexivity. Qed.

Example patch_kernel_example :
  let ram := poke_bytes (MemorySpace_new 0x1000000 zeroed) 0x3B341E
                        [x12; x34; x56; x78] in
  map (ms_data (patch_kernel ram 0))
      [0x3B341D; 0x3B341E; 0x3B341F; 0x3B3420; 0x3B3421; 0x3B3422]
  = [x00; x12; x3c; x56; x78; x00].
Proof. vm_compute. reflexivity. Qed.

(** C1, as stated, fails on two fixtures.  On a kernel of 0x80001 bytes
    [recover] succeeds, and byte 0x80000 of the segment data has no
    counterpart in the firmware shadow, which ends at offset 0x7FFFF.  On
    a kernel of 0x80000 bytes with physical address 0x80000000 [recover]
    succeeds, and nothing is mapped at that guest-physical address: the
    segment was written at offset 0x80000000 of the RAM store, which the
    guest sees from 4GB on. *)
Lemma dual_write_fails_on_long_or_high_kernel :
  ~ dual_write_as_stated (env := fixture) "long.pup" default_machine /\
  ~ dual_write_as_stated (env := fixture) "high.pup" default_machine.
Proof.
  unfold dual_write_as_stated. split.
  - intros H.
    assert (Hok : recover_result (env := fixture) "long.pup" default_machine
                  = Ok tt) by (vm_compute; reflexivity).
    assert (Hsize : match kernel_segment (env := fixture) "long.pup" with
                    | Ok (_, d) => buf_size d
                    | Err _ => 0
                    end = 0x80001) by (vm_compute; reflexivity).
    assert (Hread : MemorySpace_read
                      (space_ubios (recover_machine (env := fixture)
                                                    "long.pup" default_machine))
                      0x80000 = Err OutOfBounds) by (vm_compute; reflexivity).
    destruct (kernel_segment (env := fixture) "long.pup")
      as [[phdr pdata]|e] eqn:Hseg; [|discriminate Hsize].
    destruct (H Hok phdr pdata eq_refl 0x80000 ltac:(lia)) as [_ Hshadow].
    rewrite Hread in Hshadow. discriminate Hshadow.
  - intros H.
    assert (Hok : recover_result (env := fixture) "high.pup" default_machine
                  = Ok tt) by (vm_compute; reflexivity).
    assert (Hsize : match kernel_segment (env := fixture) "high.pup" with
                    | Ok (ph, d) => (p_paddr ph, buf_size d)
                    | Err _ => (0, 0)
                    end = (0x80000000, 0x80000)) by (vm_compute; reflexivity).
    assert (Hread : guest_read
                      (recover_machine (env := fixture)
                                       "high.pup" default_machine)
                      0x80000000 = Err UnmappedAddress)
      by (vm_compute; reflexivity).
    destruct (kernel_segment (env := fixture) "high.pup")
      as [[phdr pdata]|e] eqn:Hseg; [|discriminate Hsize].
    injection Hsize as Hpaddr Hsize.
    destruct (H Hok phdr pdata eq_refl 0 ltac:(lia)) as [Hguest _].
    rewrite Hpaddr in Hguest. change (2147483648 + 0) with 2147483648 in Hguest.
    rewrite Hread in Hguest. discriminate Hguest.
Qed.

Lemma recover_dual_write_witness :
  constructed_spaces (Machine_reset (Collaborators := fixture) default_machine) /\
  recover_result (env := fixture) "exact.pup" default_machine = Ok tt /\
  exists phdr pdata,
    kernel_segment (env := fixture) "exact.pup" = Ok (phdr, pdata) /\
    let m' := recover_machine (env := fixture) "exact.pup" default_machine in
    (forall i, 0 <= i < 0x80000 ->
       MemorySpace_read (space_ram m') (p_paddr phdr + i) = Ok (buf_at pdata i) /\
       guest_read m' (p_paddr phdr + i) = Ok (buf_at pdata i) /\
       MemorySpace_read (space_ubios m') i = Ok (buf_at pdata i) /\
       guest_read m' (4 * 2 ^ 30 - 0x80000 + i) = Ok (buf_at pdata i)).
Proof.
  assert (Hspaces : constructed_spaces
                      (Machine_reset (Collaborators := fixture) default_machine))
    by exact default_machine_spaces.
  assert (Hok : recover_result (env := fixture) "exact.pup" default_machine
                = Ok tt) by (vm_compute; reflexivity).
  assert (Hsize : match kernel_segment (env := fixture) "exact.pup" with
                  | Ok (ph, d) => (p_paddr ph, buf_size d)
                  | Err _ => (0, 0)
                  end = (0x200000, 0x80000)) by (vm_compute; reflexivity).
  split; [exact Hspaces|]. split; [exact Hok|].
  destruct (kernel_segment (env := fixture) "exact.pup")
    as [[phdr pdata]|e] eqn:Hseg; [|discriminate Hsize].
  injection Hsize as Hpaddr Hsize.
  destruct (recover_dual_write (env := fixture) "exact.pup" default_machine
              phdr pdata Hspaces Hseg Hok)
    as (Hoff & Hfit & Hram & Hlow & _ & Hshadow & _).
  exists phdr, pdata. split; [reflexivity|].
  intros m' i Hi. split; [apply Hram; lia|].
  split; [apply Hlow; lia|]. apply Hshadow; lia.
Defined.



Lemma pipeline_narrowing_witness :
  recover_result (env := fixture) "exact.pup" default_machine = Ok tt /\
  lookup_keys (env := fixture)
    (recover_trace (env := fixture) "exact.pup" default_machine)
  = [ByName "PS4UPDATE1.PUP"; ById 5; ByName "80010002"] /\
  exists fs rest,
    FileStream_open (Collaborators := fixture) "exact.pup" = Ok fs /\
    recover_trace (env := fixture) "exact.pup" default_machine
    = EvReset :: EvFileStream "exact.pup" :: EvBlsParser fs :: rest.
Proof.
  assert (Hok : recover_result (env := fixture) "exact.pup" default_machine
                = Ok tt) by (vm_compute; reflexivity).
  split; [exact Hok|].
  destruct (pipeline_narrowing (env := fixture) "exact.pup" default_machine)
    as [_ Hchain].
  destruct (Hchain Hok)
    as (fs & bls & bs & pup & coreos & coreos_bls & kernel_bs & kernel & rest
        & Htr & Hrest & Hfs & _).
  split.
  - rewrite Htr. cbn [lookup_keys lookup_key]. rewrite Hrest. reflexivity.
  - exists fs. eexists. split; [exact Hfs|]. exact Htr.
Defined.

Lemma recover_resets_first_witness :
  (forall m0, space_mem (Machine_reset (Collaborators := fixture) m0)
              = space_mem m0) /\
  (exists rest,
      recover_trace (env := fixture) "exact.pup" default_machine
      = EvReset :: rest /\
      Forall (fun ev => is_reset ev = false) rest) /\
  space_mem (recover_machine (env := fixture) "exact.pup" default_machine)
  = space_mem default_machine.
Proof.
  assert (Hreset : forall m0,
             space_mem (Machine_reset (Collaborators := fixture) m0)
             = space_mem m0) by (intros m0; reflexivity).
  split; [exact Hreset|].
  destruct (recover_resets_first (env := fixture) "exact.pup" default_machine
              Hreset)
    as (Hfirst & _ & _ & _ & _ & _ & Hlayout).
  split; [exact Hfirst | exact Hlayout].
Defined.

Lemma patch_step_disabled_witness :
  recover_result (env := fixture) "exact.pup" default_machine = Ok tt /\
  exists phdr pdata,
    kernel_segment (env := fixture) "exact.pup" = Ok (phdr, pdata) /\
    forall a,
      ms_data (space_ram (recover_machine (env := fixture)
                                          "exact.pup" default_machine)) a
      = if in_range (p_paddr phdr) (buf_size pdata) a
        then buf_at pdata (a - p_paddr phdr)
        else ms_data (space_ram
                        (Machine_reset (Collaborators := fixture)
                                       default_machine)) a.
Proof.
  assert (Hok : recover_result (env := fixture) "exact.pup" default_machine
                = Ok tt) by (vm_compute; reflexivity).
  split; [exact Hok|].
  destruct (patch_step_disabled (env := fixture) "exact.pup" default_machine)
    as (_ & _ & Hframe).
  destruct (Hframe Hok)
    as (phdr & pdata & ram' & ubios' & Hseg & _ & _ & _ & _ & Hram & _).
  exists phdr, pdata. split; [exact Hseg | exact Hram].
Defined.

Lemma shadow_copy_length_witness :
  kernel_segment (env := fixture) "short.pup"
  = Ok (loaded_segment 0x200000 (pattern_bytes 3)) /\
  is_ok (MemorySpace_write
           (space_ram (Machine_reset (Collaborators := fixture) default_machine))
           0x200000 (buf_size (host_buffer (pattern_bytes 3)))
           (host_buffer (pattern_bytes 3))) = true /\
  ms_size (space_ubios (Machine_reset (Collaborators := fixture) default_machine))
  = 0x80000 /\
  buf_size (host_buffer (pattern_bytes 3)) < 0x80000 /\
  last (recover_trace (env := fixture) "short.pup" default_machine) EvReset
  = EvWrite UBIOS 0 0x80000 /\
  ms_data (space_ubios (recover_machine (env := fixture)
                                        "short.pup" default_machine)) 2
  = x02 /\
  ms_data (space_ubios (recover_machine (env := fixture)
                                        "short.pup" default_machine)) 3
  = heap_fill 0.
Proof.
  assert (Hseg : kernel_segment (env := fixture) "short.pup"
                 = Ok (loaded_segment 0x200000 (pattern_bytes 3)))
    by (vm_compute; reflexivity).
  assert (Hshort : buf_size (host_buffer (pattern_bytes 3)) < 0x80000)
    by (vm_compute; reflexivity).
  split; [exact Hseg|]. split; [reflexivity|]. split; [reflexivity|].
  split; [exact Hshort|].
  destruct (MemorySpace_write
              (space_ram (Machine_reset (Collaborators := fixture)
                                        default_machine))
              0x200000 (buf_size (host_buffer (pattern_bytes 3)))
              (host_buffer (pattern_bytes 3)))
    as [ram'|e] eqn:Hram; [|discriminate Hram].
  destruct (shadow_copy_length (env := fixture) "short.pup" default_machine
              {| p_type := PT_LOAD; p_paddr := 0x200000 |}
              (host_buffer (pattern_bytes 3)) ram' Hseg Hram eq_refl)
    as (Hlast & _ & _ & Hpast).
  destruct (Hpast Hshort) as (_ & Hinside & Hafter).
  split; [exact Hlast|]. split.
  - rewrite (Hinside 2) by (vm_compute; split; [discriminate | reflexivity]).
    reflexivity.
  - rewrite (Hafter 3) by (vm_compute; split; [discriminate | reflexivity]).
    reflexivity.
Defined.

Lemma recover_failure_is_atomic_witness :
  kernel_segment (env := fixture) "nokernel.pup" = Err EntryNotFound /\
  recover_result (env := fixture) "nokernel.pup" default_machine
  = Err EntryNotFound /\
  recover_machine (env := fixture) "nokernel.pup" default_machine
  = Machine_reset (Collaborators := fixture) default_machine /\
  Forall (fun ev => is_write ev = false)
         (recover_trace (env := fixture) "nokernel.pup" default_machine).
Proof.
  split; [reflexivity|].
  destruct (recover_failure_is_atomic (env := fixture) "nokernel.pup"
              default_machine)
    as [_ Hatomic].
  destruct (Hatomic EntryNotFound eq_refl) as (Hr & Hm & _ & _ & Htr).
  split; [exact Hr|]. split; [exact Hm | exact Htr].
Defined.

(* ================================================================== *)
(** * Further properties: construction and teardown *)

Lemma count_from_length steps : forall i,
  List.length (count_from i steps) = steps.
Proof.
  induction steps as [|steps IH]; intros i; [reflexivity|].
  cbn [count_from List.length]. rewrite IH. reflexivity.
Qed.

Lemma count_from_In steps : forall i x,
  In x (count_from i steps) <-> i <= x < i + Z.of_nat steps.
Proof.
  induction steps as [|steps IH]; intros i x.
  - cbn [count_from In]. lia.
  - cbn [count_from In]. rewrite IH. lia.
Qed.

Lemma count_from_nth steps : forall i k d,
  (k < steps)%nat -> nth k (count_from i steps) d = i + Z.of_nat k.
Proof.
  induction steps as [|steps IH]; intros i k d Hk; [lia|].
  destruct k as [|k]; cbn [count_from nth].
  - lia.
  - rewrite IH by lia. lia.
Qed.

Lemma count_from_NoDup steps : forall i, NoDup (count_from i steps).
Proof.
  induction steps as [|steps IH]; intros i; cbn [count_from].
  - constructor.
  - constructor; [|apply IH]. rewrite count_from_In. lia.
Qed.

(** The CPU loop, lines 58-63: the constructor creates one CPU per index
    0, 1, ..., [cpu_count - 1], in this order and each once; a count of
    zero or below creates none.  The CPU objects constructed are those of
    these indices. *)
Theorem constructor_creates_cpus
    (cfg : PS4MachineConfig) (ram_init ubios_init : Z -> byte) :
  exists m,
    PS4Machine_new cfg ram_init ubios_init = Ok m /\
    Z.of_nat (List.length (cpus m)) = Z.max 0 (cpu_count cfg) /\
    (forall k, (k < List.length (cpus m))%nat ->
               nth k (cpus m) (-1) = Z.of_nat k) /\
    (forall i, In i (cpus m) <-> 0 <= i < cpu_count cfg) /\
    NoDup (cpus m) /\
    (forall i, In (c_cpu i) (objects m) <-> 0 <= i < cpu_count cfg).
Proof.
  eexists. split; [reflexivity|].
  cbn [cpus objects]. unfold for_range.
  assert (Hin : forall i, In i (count_from 0 (Z.to_nat (cpu_count cfg)))
                          <-> 0 <= i < cpu_count cfg)
    by (intros i; rewrite count_from_In; lia).
  split; [rewrite count_from_length; lia|].
  split; [intros k Hk; rewrite count_from_length in Hk;
          rewrite count_from_nth by exact Hk; lia|].
  split; [exact Hin|].
  split; [apply count_from_NoDup|].
  intros i. rewrite <- Hin. rewrite !in_app_iff, in_map_iff. split.
  - intros [Hpre | [(x & Hx & Hxin) | [Hlvp | Haeolia]]].
    + cbn [In] in Hpre. intuition discriminate.
    + injection Hx as <-. exact Hxin.
    + cbn [In] in Hlvp. intuition discriminate.
    + cbn [In] in Haeolia. intuition discriminate.
  - intros Hi. right. left. exists i. split; [reflexivity | exact Hi].
Qed.

(** The destructor against the constructor, lines 121-140 and 38-93: every
    object the destructor deletes was constructed, and is deleted once.
    The objects deleted are the eight Aeolia devices, the Liverpool host
    and the four memory spaces; the VM, the CPUs and the eleven Liverpool
    bus devices are constructed and not deleted by this destructor. *)
Theorem destructor_releases_once
    (cfg : PS4MachineConfig) (ram_init ubios_init : Z -> byte) :
  exists m,
    PS4Machine_new cfg ram_init ubios_init = Ok m /\
    NoDup (PS4Machine_delete m) /\
    (forall c, In c (PS4Machine_delete m) -> In c (objects m)) /\
    (forall c, In c (PS4Machine_delete m) <->
               is_aeolia c = true \/ c = c_lvp_host \/ is_space c = true) /\
    (forall c, In c (objects m) -> ~ In c (PS4Machine_delete m) ->
               c = c_vm \/ (exists i, c = c_cpu i) \/ In c liverpool_devices) /\
    In c_vm (objects m) /\
    (forall c, In c liverpool_devices -> In c (objects m)).
Proof.
  eexists. split; [reflexivity|].
  assert (Hset : forall c,
             In c (PS4Machine_delete default_machine) <->
             is_aeolia c = true \/ c = c_lvp_host \/ is_space c = true).
  { intros c. unfold PS4Machine_delete. cbn [app In]. split.
    - intros H.
      repeat (destruct H as [<- | H]; [cbn; auto|]). contradiction.
    - intros [H | [-> | H]]; [| cbn; tauto |];
        destruct c; try discriminate H; cbn; tauto. }
  split; [|split; [|split; [exact Hset|split; [|split]]]].
  - unfold PS4Machine_delete. cbn [app].
    repeat (constructor; [cbn [In]; intuition discriminate|]). constructor.
  - intros c Hc. apply Hset in Hc. cbn [objects].
    rewrite !in_app_iff.
    destruct Hc as [H | [-> | H]].
    + right. right. right. destruct c; try discriminate H; cbn; tauto.
    + right. right. left. cbn. tauto.
    + left. destruct c; try discriminate H; cbn; tauto.
  - intros c Hc Hnot. cbn [objects] in Hc.
    rewrite !in_app_iff, in_map_iff in Hc.
    destruct Hc as [Hpre | [(i & <- & _) | [Hlvp | Haeolia]]].
    + cbn [In] in Hpre.
      destruct Hpre as [<- | Hpre]; [left; reflexivity|].
      exfalso. apply Hnot. apply Hset.
      repeat (destruct Hpre as [<- | Hpre]; [cbn; auto|]). contradiction.
    + right. left. exists i. reflexivity.
    + cbn [In] in Hlvp.
      destruct Hlvp as [<- | Hlvp];
        [exfalso; apply Hnot; apply Hset; auto|].
      right. right. unfold liverpool_devices. cbn [In]. tauto.
    + exfalso. apply Hnot. apply Hset. cbn [In] in Haeolia.
      repeat (destruct Haeolia as [<- | Haeolia]; [cbn; auto|]). contradiction.
  - cbn [objects app In]. auto.
  - intros c Hc. cbn [objects]. rewrite !in_app_iff.
    right. right. left. unfold liverpool_devices in Hc. cbn [In] in Hc |- *.
    tauto.
Qed.

(** The guest-physical map the constructor builds, lines 42-56: byte [o]
    of the RAM store is at guest address [o] below 2GB and at guest
    address [o + 2GB] from there on, byte [o] of the UBIOS store is at
    guest address 4GB - 0x80000 + [o], and every other guest address is
    unmapped. *)
Theorem constructed_guest_map
    (cfg : PS4MachineConfig) (ram_init ubios_init : Z -> byte) :
  exists m,
    PS4Machine_new cfg ram_init ubios_init = Ok m /\
    (forall o, 0 <= o < 0x80000000 ->
       guest_read m o = Ok (ms_data (space_ram m) o)) /\
    (forall o, 0x80000000 <= o < 0x200000000 ->
       guest_read m (o + 0x80000000) = Ok (ms_data (space_ram m) o)) /\
    (forall o, 0 <= o < 0x80000 ->
       guest_read m (0xFFF80000 + o) = Ok (ms_data (space_ubios m) o)) /\
    (forall a, a < 0 \/ 0x80000000 <= a < 0xFFF80000 \/ 0x280000000 <= a ->
       guest_read m a = Err UnmappedAddress).
Proof.
  destruct (PS4Machine_new_ok cfg ram_init ubios_init) as (m & Hnew & _).
  exists m. split; [exact Hnew|].
  assert (Hm : constructed_spaces m).
  { exists cfg, ram_init, ubios_init, m. repeat split. exact Hnew. }
  destruct (constructed_spaces_inv m Hm) as (_ & Hram & Hubios).
  split; [|split; [|split]].
  - intros o Ho. rewrite guest_read_below by (assumption || lia).
    apply MemorySpace_read_in. lia.
  - intros o Ho. rewrite guest_read_above by (assumption || lia).
    replace (o + 2147483648 - 2147483648) with o by lia.
    apply MemorySpace_read_in. lia.
  - intros o Ho. rewrite guest_read_shadow by (assumption || lia).
    replace (4294443008 + o - 4294443008) with o by lia.
    apply MemorySpace_read_in. lia.
  - intros a Ha. apply guest_read_unmapped; assumption.
Qed.

(** The scratch-pad as the guest sees it, lines 42-51 and 98-118: it lies
    in the below-4GB window, so after construction the guest reads the
    configured bytes at guest-physical addresses 0x600000 and up,
    whatever the configuration. *)
Theorem scratch_pad_guest_visible
    (cfg : PS4MachineConfig) (ram_init ubios_init : Z -> byte) :
  exists m,
    PS4Machine_new cfg ram_init ubios_init = Ok m /\
    (forall off, 0 <= off < 0x1CD ->
       guest_read m (0x600000 + off)
       = MemorySpace_read (space_ram m) (0x600000 + off)) /\
    map (fun off => guest_read m (0x600000 + off))
        [0x000; 0x006; 0x009; 0x00C; 0x00D]
    = [Ok x06; Ok x04; Ok x02; Ok x01; Ok x82] /\
    map (fun off => guest_read m (0x600000 + off))
        [0x1C8; 0x1C9; 0x1CA; 0x1CB; 0x1CC]
    = [Ok "W"%byte; Ok "5"%byte; Ok "C"%byte; Ok "2"%byte; Ok "1"%byte] /\
    (forall i, 0 <= i < 20 ->
       guest_read m (0x600000 + 0x160 + i)
       = Ok (nth (Z.to_nat i) sha1_null16_preimage x00)).
Proof.
  destruct (PS4Machine_new_ok cfg ram_init ubios_init)
    as (m & Hnew & _ & Hram & _).
  exists m. split; [exact Hnew|].
  assert (Hm : constructed_spaces m).
  { exists cfg, ram_init, ubios_init, m. repeat split. exact Hnew. }
  split; [intros off Hoff; apply guest_read_below; [exact Hm | lia]|].
  cbn [map]. rewrite !guest_read_below by (exact Hm || lia).
  rewrite Hram. split; [reflexivity|]. split; [reflexivity|].
  intros i Hi.
  rewrite guest_read_below by (exact Hm || lia). rewrite Hram.
  assert (Hcases : i = 0 \/ i = 1 \/ i = 2 \/ i = 3 \/ i = 4 \/ i = 5 \/
                   i = 6 \/ i = 7 \/ i = 8 \/ i = 9 \/ i = 10 \/ i = 11 \/
                   i = 12 \/ i = 13 \/ i = 14 \/ i = 15 \/ i = 16 \/
                   i = 17 \/ i = 18 \/ i = 19) by lia.
  repeat (destruct Hcases as [-> | Hcases]; [reflexivity|]).
  subst i. reflexivity.
Qed.

(* ================================================================== *)
(** * Further properties: the patch block *)

Lemma byte_to_of_Z z : byte_to_Z (byte_of_Z z) = Z.land z 255.
Proof.
  unfold byte_of_Z, byte_to_Z.
  assert (Hrange : 0 <= Z.land z 255 < 256).
  { change 255 with (Z.ones 8). rewrite Z.land_ones by lia.
    apply Z.mod_pos_bound. lia. }
  destruct (Byte.of_N (Z.to_N (Z.land z 255))) as [b|] eqn:Hb.
  - apply Byte.to_of_N in Hb. rewrite Hb. lia.
  - apply Byte.of_N_None_iff in Hb. lia.
Qed.

Lemma byte_lor_8 b :
  byte_to_Z (byte_of_Z (Z.lor (byte_to_Z b) 8)) = Z.lor (byte_to_Z b) 8.
Proof.
  rewrite byte_to_of_Z. apply Z.bits_inj'. intros n Hn.
  rewrite Z.land_spec, Z.lor_spec.
  destruct (Z.lt_ge_cases n 8) as [Hlow | Hhigh].
  - change 255 with (Z.ones 8). rewrite Z.ones_spec_low by lia.
    apply andb_true_r.
  - rewrite byte_bits_high by lia.
    change 8 with (2 ^ 3). rewrite Z.pow2_bits_false by lia. reflexivity.
Qed.

(** The patch block, lines 167-172, had it run: the little-endian [U32]
    at segment offset 0x3B341E has 0x800 ORed in, every byte outside
    these four is left alone, the size of the store is unchanged, and
    running the block again changes nothing. *)
Theorem patch_kernel_ors_0x800 (ram : MemorySpace) (paddr : Z) :
  load_u32 (patch_kernel ram paddr) (paddr + 0x3B341E)
  = Z.lor (load_u32 ram (paddr + 0x3B341E)) 0x800 /\
  (forall a, a < paddr + 0x3B341E \/ paddr + 0x3B341E + 4 <= a ->
     ms_data (patch_kernel ram paddr) a = ms_data ram a) /\
  ms_size (patch_kernel ram paddr) = ms_size ram /\
  (forall a, ms_data (patch_kernel (patch_kernel ram paddr) paddr) a
             = ms_data (patch_kernel ram paddr) a).
Proof.
  split; [|split; [|split]].
  - unfold load_u32. rewrite !patch_kernel_bytes.
    set (off := paddr + 3879966).
    replace (off =? off + 1) with false by (symmetry; lia).
    replace (off + 1 =? off + 1) with true by (symmetry; lia).
    replace (off + 2 =? off + 1) with false by (symmetry; lia).
    replace (off + 3 =? off + 1) with false by (symmetry; lia).
    unfold u32_of_bytes. rewrite byte_lor_8, Z.shiftl_lor.
    change (Z.shiftl 8 8) with 2048.
    apply Z.bits_inj'. intros n Hn. rewrite !Z.lor_spec.
    destruct (Z.testbit (byte_to_Z (ms_data ram off)) n),
             (Z.testbit (Z.shiftl (byte_to_Z (ms_data ram (off + 1))) 8) n),
             (Z.testbit (Z.shiftl (byte_to_Z (ms_data ram (off + 2))) 16) n),
             (Z.testbit (Z.shiftl (byte_to_Z (ms_data ram (off + 3))) 24) n),
             (Z.testbit 2048 n); reflexivity.
  - intros a Ha. rewrite patch_kernel_bytes.
    replace (a =? paddr + 3879966 + 1) with false by (symmetry; lia).
    reflexivity.
  - unfold patch_kernel, store_u32. cbv zeta. apply poke_bytes_size.
  - intros a. rewrite !patch_kernel_bytes.
    destruct (a =? paddr + 3879966 + 1); [|reflexivity].
    apply byte_of_Z_low. rewrite byte_lor_8.
    rewrite <- Z.lor_assoc, Z.lor_diag. reflexivity.
Qed.

(* ================================================================== *)
(** * Further properties on the fixtures *)

Ltac by_evaluation :=
  vm_compute; first [reflexivity | discriminate | intros H; discriminate H].

Lemma segment_outside_ram_witness :
  kernel_segment (env := edge_fixture) "beyond.pup"
  = Ok (loaded_segment (0x200000000 - 16) (pattern_bytes 32)) /\
  ms_size (space_ram (Machine_reset (Collaborators := edge_fixture)
                                    default_machine))
  < 0x200000000 - 16 + buf_size (host_buffer (pattern_bytes 32)) /\
  recover_result (env := edge_fixture) "beyond.pup" default_machine
  = Err OutOfBounds /\
  recover_machine (env := edge_fixture) "beyond.pup" default_machine
  = Machine_reset (Collaborators := edge_fixture) default_machine.
Proof.
  assert (Hseg : kernel_segment (env := edge_fixture) "beyond.pup"
                 = Ok (loaded_segment (0x200000000 - 16) (pattern_bytes 32)))
    by by_evaluation.
  assert (Hout : ms_size (space_ram (Machine_reset (Collaborators := edge_fixture)
                                                   default_machine))
                 < 0x200000000 - 16 + buf_size (host_buffer (pattern_bytes 32)))
    by by_evaluation.
  split; [exact Hseg|]. split; [exact Hout|].
  destruct (segment_outside_ram (env := edge_fixture) "beyond.pup"
              default_machine _ _ Hseg (or_intror Hout))
    as (Hr & Hm & _).
  split; [exact Hr | exact Hm].
Defined.

Lemma recover_and_the_scratch_pad_witness :
  (* a kernel loaded across the scratch-pad *)
  (recover_result (env := edge_fixture) "over.pup" default_machine = Ok tt /\
   exists phdr pdata,
     kernel_segment (env := edge_fixture) "over.pup" = Ok (phdr, pdata) /\
     p_paddr phdr = 0x5C0000 /\
     ms_data (space_ram (recover_machine (env := edge_fixture)
                                         "over.pup" default_machine))
             0x600000
     = buf_at pdata 0x40000) /\
  (* a kernel loaded below it *)
  (recover_result (env := fixture) "exact.pup" default_machine = Ok tt /\
   ms_data (space_ram (recover_machine (env := fixture)
                                       "exact.pup" default_machine))
           0x600000
   = x06).
Proof.
  split.
  - assert (Hok : recover_result (env := edge_fixture) "over.pup"
                                 default_machine = Ok tt) by by_evaluation.
    assert (Hsize : match kernel_segment (env := edge_fixture) "over.pup" with
                    | Ok (ph, d) => (p_paddr ph, buf_size d)
                    | Err _ => (0, 0)
                    end = (0x5C0000, 0x80000)) by by_evaluation.
    split; [exact Hok|].
    destruct (kernel_segment (env := edge_fixture) "over.pup")
      as [[phdr pdata]|e] eqn:Hseg; [|discriminate Hsize].
    injection Hsize as Hpaddr Hsize.
    destruct (recover_and_the_scratch_pad (env := edge_fixture)
                PS4MachineConfig_default zeroed zeroed
                "over.pup" default_machine phdr pdata
                default_machine_constructed (fun a => eq_refl) Hseg Hok)
      as [Hcover _].
    exists phdr, pdata. split; [reflexivity|]. split; [exact Hpaddr|].
    specialize (Hcover ltac:(lia) 0 ltac:(lia)).
    rewrite Hpaddr in Hcover. exact Hcover.
  - assert (Hok : recover_result (env := fixture) "exact.pup"
                                 default_machine = Ok tt) by by_evaluation.
    assert (Hsize : match kernel_segment (env := fixture) "exact.pup" with
                    | Ok (ph, d) => (p_paddr ph, buf_size d)
                    | Err _ => (0, 0)
                    end = (0x200000, 0x80000)) by by_evaluation.
    split; [exact Hok|].
    destruct (kernel_segment (env := fixture) "exact.pup")
      as [[phdr pdata]|e] eqn:Hseg; [|discriminate Hsize].
    injection Hsize as Hpaddr Hsize.
    destruct (recover_and_the_scratch_pad (env := fixture)
                PS4MachineConfig_default zeroed zeroed
                "exact.pup" default_machine phdr pdata
                default_machine_constructed (fun a => eq_refl) Hseg Hok)
      as [_ Hapart].
    destruct (Hapart ltac:(lia)) as (_ & Hboot & _). exact Hboot.
Defined.


Lemma successful_run_witness :
  recover_result (env := fixture) "exact.pup" default_machine = Ok tt /\
  List.length (recover_trace (env := fixture) "exact.pup" default_machine)
  = 14%nat.
Proof.
  assert (Hok : recover_result (env := fixture) "exact.pup" default_machine
                = Ok tt) by by_evaluation.
  split; [exact Hok|].
  destruct (successful_run (env := fixture) "exact.pup" default_machine Hok)
    as (fs & bls & bs & pup & coreos & coreos_bls & kernel_bs & kernel
        & ehdr & phdr & pdata & Htr & _).
  rewrite Htr. reflexivity.
Defined.

Lemma failed_lookup_stops_recover_witness :
  recover_result (env := edge_fixture) "nopup.pup" default_machine
  = Err EntryNotFound /\
  recover_result (env := edge_fixture) "nocoreos.pup" default_machine
  = Err EntryNotFound /\
  recover_result (env := edge_fixture) "nokernel.pup" default_machine
  = Err EntryNotFound /\
  List.length (recover_trace (env := edge_fixture)
                             "nokernel.pup" default_machine) = 8%nat.
Proof.
  split; [|split].
  - destruct (failed_lookup_stops_recover (env := edge_fixture)
                "nopup.pup" default_machine) as (Houter & _ & _).
    assert (H1 : FileStream_open (Collaborators := edge_fixture) "nopup.pup"
                 = Ok (Bls [])) by by_evaluation.
    assert (H2 : BlsParser_new (Collaborators := edge_fixture) (Bls [])
                 = Ok []) by by_evaluation.
    assert (H3 : BlsParser_get (Collaborators := edge_fixture) []
                               "PS4UPDATE1.PUP" = Err EntryNotFound)
      by by_evaluation.
    exact (proj1 (Houter _ _ _ H1 H2 H3)).
  - destruct (failed_lookup_stops_recover (env := edge_fixture)
                "nocoreos.pup" default_machine) as (_ & Hpup & _).
    assert (H1 : FileStream_open (Collaborators := edge_fixture) "nocoreos.pup"
                 = Ok (Bls [("PS4UPDATE1.PUP"%string, Pup [])]))
      by by_evaluation.
    assert (H2 : BlsParser_new (Collaborators := edge_fixture)
                   (Bls [("PS4UPDATE1.PUP"%string, Pup [])])
                 = Ok [("PS4UPDATE1.PUP"%string, Pup [])]) by by_evaluation.
    assert (H3 : BlsParser_get (Collaborators := edge_fixture)
                   [("PS4UPDATE1.PUP"%string, Pup [])] "PS4UPDATE1.PUP"
                 = Ok (Pup [])) by by_evaluation.
    assert (H4 : PupParser_new (Collaborators := edge_fixture) (Pup [])
                 = Ok []) by by_evaluation.
    assert (H5 : PupParser_get (Collaborators := edge_fixture) [] 5
                 = Err EntryNotFound) by by_evaluation.
    exact (proj1 (Hpup _ _ _ _ _ H1 H2 H3 H4 H5)).
  - destruct (failed_lookup_stops_recover (env := edge_fixture)
                "nokernel.pup" default_machine) as (_ & _ & Hinner).
    assert (H1 : FileStream_open (Collaborators := edge_fixture) "nokernel.pup"
                 = Ok (Bls [("PS4UPDATE1.PUP"%string, Pup [(5, Bls [])])]))
      by by_evaluation.
    assert (H2 : BlsParser_new (Collaborators := edge_fixture)
                   (Bls [("PS4UPDATE1.PUP"%string, Pup [(5, Bls [])])])
                 = Ok [("PS4UPDATE1.PUP"%string, Pup [(5, Bls [])])])
      by by_evaluation.
    assert (H3 : BlsParser_get (Collaborators := edge_fixture)
                   [("PS4UPDATE1.PUP"%string, Pup [(5, Bls [])])]
                   "PS4UPDATE1.PUP"
                 = Ok (Pup [(5, Bls [])])) by by_evaluation.
    assert (H4 : PupParser_new (Collaborators := edge_fixture)
                   (Pup [(5, Bls [])])
                 = Ok [(5, Bls [])]) by by_evaluation.
    assert (H5 : PupParser_get (Collaborators := edge_fixture)
                   [(5, Bls [])] 5 = Ok (Bls [])) by by_evaluation.
    assert (H6 : BlsParser_new (Collaborators := edge_fixture) (Bls [])
                 = Ok []) by by_evaluation.
    assert (H7 : BlsParser_get (Collaborators := edge_fixture) [] "80010002"
                 = Err EntryNotFound) by by_evaluation.
    destruct (Hinner _ _ _ _ _ _ _ H1 H2 H3 H4 H5 H6 H7) as [Hr Htr].
    split; [exact Hr|]. rewrite Htr. reflexivity.
Defined.
